(** * Financial tools: a shallow embedding of [financial_tools.py]

    The five tools of the module ([get_stock_price], [get_company_info],
    [get_financial_history], [calculate_compound_growth],
    [calculate_financial_ratio]) are embedded as functions into an
    exception monad, together with the Python built-ins they call.

    Modelling conventions.
    - [str] is [string]; characters are ASCII (the case maps and the
      whitespace class are those of Python on code points below 128).
    - [float] is the type [float] below: an exact rational, the two
      infinities, or NaN.  Arithmetic is exact: binary64 rounding, overflow
      and underflow (and the sign of zero) are outside the model.
    - [x ** y] for a positive base and an exponent that is not an integer,
      and [sqrt], are the parameters [libm_pow] and [libm_sqrt] of the
      section [Tools]; a power with an integer exponent is exact.
    - The upstream provider is a parameter too: [fetch_info] and
      [fetch_history] return a value or raise.
    - An exception is a value [Exn kind message]; [try: ... except
      Exception as e:] is [try_except]. *)

From Stdlib Require Import ZArith QArith Qabs Qround Qpower Lqa Lia List Ascii String Bool DecimalString.
From stdpp Require Import base gmap strings.
Import ListNotations.

Local Open Scope string_scope.

(** ** Exceptions *)

Inductive exn_kind :=
| ValueError | TypeError | ZeroDivisionError | OverflowError
| IndexError | ValidationError | UpstreamError.

Inductive exn := Exn (k : exn_kind) (msg : string).

(** [str(e)] *)
Definition str_exn (e : exn) : string := let 'Exn _ m := e in m.

Inductive exc (A : Type) :=
| Return (a : A)
| Raise (e : exn).
Arguments Return {A} a.
Arguments Raise {A} e.

#[global] Instance exc_ret : MRet exc := fun _ a => Return a.
#[global] Instance exc_bind : MBind exc := fun _ _ f m =>
  match m with Return a => f a | Raise e => Raise e end.

(** [try: body except Exception as e: handler e] *)
Definition try_except {A} (body : exc A) (handler : exn -> exc A) : exc A :=
  match body with
  | Return a => Return a
  | Raise e => handler e
  end.

(** ** [str] methods *)

Definition isspace (c : ascii) : bool :=
  let n := N_of_ascii c in
  ((9 <=? n) && (n <=? 13) || (28 <=? n) && (n <=? 32))%N.

Definition upper_char (c : ascii) : ascii :=
  let n := N_of_ascii c in
  if ((97 <=? n) && (n <=? 122))%N then ascii_of_N (n - 32) else c.

Definition lower_char (c : ascii) : ascii :=
  let n := N_of_ascii c in
  if ((65 <=? n) && (n <=? 90))%N then ascii_of_N (n + 32) else c.

Fixpoint map_chars (f : ascii -> ascii) (s : string) : string :=
  match s with
  | EmptyString => EmptyString
  | String c r => String (f c) (map_chars f r)
  end.

Definition str_upper : string -> string := map_chars upper_char.
Definition str_lower : string -> string := map_chars lower_char.

Fixpoint str_lstrip (s : string) : string :=
  match s with
  | EmptyString => EmptyString
  | String c r => if isspace c then str_lstrip r else s
  end.

Fixpoint str_rstrip (s : string) : string :=
  match s with
  | EmptyString => EmptyString
  | String c r =>
      match str_rstrip r with
      | EmptyString => if isspace c then EmptyString else String c EmptyString
      | r' => String c r'
      end
  end.

Definition str_strip (s : string) : string := str_rstrip (str_lstrip s).

(** [s.split()]: the maximal runs of non-whitespace characters.
    [split_go s] is the run at the head of [s] (possibly empty) and the
    runs after it. *)
Definition push_token (t : string) (ts : list string) : list string :=
  match t with
  | EmptyString => ts
  | _ => t :: ts
  end.

Fixpoint split_go (s : string) : string * list string :=
  match s with
  | EmptyString => (EmptyString, [])
  | String c r =>
      let '(t, ts) := split_go r in
      if isspace c then (EmptyString, push_token t ts) else (String c t, ts)
  end.

Definition str_split (s : string) : list string :=
  let '(t, ts) := split_go s in push_token t ts.

(** [sep.join(parts)] *)
Fixpoint str_join (sep : string) (parts : list string) : string :=
  match parts with
  | [] => ""
  | [p] => p
  | p :: ps => p ++ sep ++ str_join sep ps
  end.

(** [parts.append(p)] *)
Definition list_append (parts : list string) (p : string) : list string :=
  (parts ++ [p])%list.

(** [repr(s)] for a [str] without quotes, backslashes or control
    characters. *)
Definition str_repr (s : string) : string := "'" ++ s ++ "'".

(** ** [float] *)

Inductive float :=
| Fin (q : Q)
| PInf
| NInf
| NaN.

(** Model equality of floats (not the operator [==]: NaN is related to
    itself). *)
Definition feq (x y : float) : Prop :=
  match x, y with
  | Fin a, Fin b => a == b
  | PInf, PInf | NInf, NInf | NaN, NaN => True
  | _, _ => False
  end.

Definition fcompare (x y : float) : option comparison :=
  match x, y with
  | NaN, _ | _, NaN => None
  | Fin a, Fin b => Some (a ?= b)%Q
  | PInf, PInf | NInf, NInf => Some Eq
  | NInf, _ | _, PInf => Some Lt
  | PInf, _ | _, NInf => Some Gt
  end.

(** The comparison operators [<], [<=], [>] and [==]; every comparison
    with NaN is [False]. *)
Definition float_lt (x y : float) : bool :=
  match fcompare x y with Some Lt => true | _ => false end.
Definition float_le (x y : float) : bool :=
  match fcompare x y with Some Lt | Some Eq => true | _ => false end.
Definition float_gt (x y : float) : bool := float_lt y x.
Definition float_eq (x y : float) : bool :=
  match fcompare x y with Some Eq => true | _ => false end.

Definition fsgn (x : float) : Z :=
  match x with
  | Fin q => Z.sgn (Qnum q)
  | PInf => 1
  | NInf => -1
  | NaN => 0
  end.

Definition finf_of_sgn (s : Z) : float :=
  match s with
  | Z0 => NaN
  | Zpos _ => PInf
  | Zneg _ => NInf
  end.

Definition fneg (x : float) : float :=
  match x with
  | Fin q => Fin (- q)
  | PInf => NInf
  | NInf => PInf
  | NaN => NaN
  end.

Definition fadd (x y : float) : float :=
  match x, y with
  | Fin a, Fin b => Fin (a + b)
  | NaN, _ | _, NaN => NaN
  | PInf, NInf | NInf, PInf => NaN
  | PInf, _ | _, PInf => PInf
  | NInf, _ | _, NInf => NInf
  end.

Definition fsub (x y : float) : float := fadd x (fneg y).

Definition fmul (x y : float) : float :=
  match x, y with
  | Fin a, Fin b => Fin (a * b)
  | NaN, _ | _, NaN => NaN
  | _, _ => finf_of_sgn (fsgn x * fsgn y)
  end.

(** IEEE division, as numpy performs it on [float64]: dividing by zero
    gives an infinity or NaN and raises nothing. *)
Definition np_div (x y : float) : float :=
  match x, y with
  | NaN, _ | _, NaN => NaN
  | Fin a, Fin b => if Qeq_bool b 0 then finf_of_sgn (fsgn x) else Fin (a / b)
  | Fin _, _ => Fin 0
  | _, Fin b => if Qle_bool 0 b then x else fneg x
  | _, _ => NaN
  end.

(** The operator [/] on Python floats. *)
Definition float_div (x y : float) : exc float :=
  if float_eq y (Fin 0) then Raise (Exn ZeroDivisionError "float division by zero")
  else Return (np_div x y).

Definition Qis_int (q : Q) : bool := (Z.pos (Qden (Qred q)) =? 1)%Z.
Definition Qto_int (q : Q) : Z := Qnum (Qred q).

Definition is_odd_integer (x : float) : bool :=
  match x with
  | Fin q => Qis_int q && Z.odd (Qto_int q)
  | _ => false
  end.

(** [round(x)] to the nearest integer, ties to even. *)
Definition round_half_even (q : Q) : Z :=
  let f := Qfloor q in
  match (q - inject_Z f ?= 1 # 2)%Q with
  | Lt => f
  | Gt => (f + 1)%Z
  | Eq => if Z.even f then f else (f + 1)%Z
  end.

Definition pow10 (n : nat) : Z := (10 ^ Z.of_nat n)%Z.

(** [round(x, ndigits)] *)
Definition round_q (q : Q) (ndigits : nat) : Q :=
  Qred (inject_Z (round_half_even (q * inject_Z (pow10 ndigits)))
        / inject_Z (pow10 ndigits)).

Definition round_nd (x : float) (ndigits : nat) : float :=
  match x with
  | Fin q => Fin (round_q q ndigits)
  | _ => x
  end.

(** ** Parsing and printing numbers *)

Definition is_digit (c : ascii) : bool :=
  let n := N_of_ascii c in ((48 <=? n) && (n <=? 57))%N.

Definition digit_val (c : ascii) : Z := (Z.of_N (N_of_ascii c) - 48)%Z.

(** A digit part [digit (["_"] digit)*] at the head of [l]: its value
    (continuing [acc]), the number of digits read (continuing [n]) and
    what follows it.  An underscore is read only between two digits. *)
Fixpoint digitpart (acc : Z) (n : nat) (l : list ascii) : Z * nat * list ascii :=
  match l with
  | c :: r =>
      if is_digit c then digitpart (10 * acc + digit_val c)%Z (S n) r
      else if Ascii.eqb c "_" && negb (Nat.eqb n 0) then
        match r with
        | d :: r' =>
            if is_digit d then digitpart (10 * acc + digit_val d)%Z (S n) r'
            else (acc, n, l)
        | [] => (acc, n, l)
        end
      else (acc, n, l)
  | [] => (acc, n, l)
  end.

Definition take_sign (l : list ascii) : bool * list ascii :=
  match l with
  | "-"%char :: r => (true, r)
  | "+"%char :: r => (false, r)
  | _ => (false, l)
  end.

(** The decimal literal [sign digits [. digits] [e sign digits]], with
    its exact value. *)
Definition parse_decimal (neg : bool) (l : list ascii) : option Q :=
  let '(ip, n1, r1) := digitpart 0 0 l in
  let '(fp, n2, r2) :=
    match r1 with
    | "."%char :: r' => digitpart 0 0 r'
    | _ => (0%Z, 0%nat, r1)
    end in
  let '(ex, ok, r3) :=
    match r2 with
    | c :: r' =>
        if Ascii.eqb c "e" || Ascii.eqb c "E" then
          let '(eneg, r'') := take_sign r' in
          let '(ev, n3, r''') := digitpart 0 0 r'' in
          (if eneg then (- ev)%Z else ev, negb (Nat.eqb n3 0), r''')
        else (0%Z, true, r2)
    | [] => (0%Z, true, r2)
    end in
  if negb (Nat.eqb (n1 + n2) 0) && ok && (match r3 with [] => true | _ => false end) then
    let mant := (ip * pow10 n2 + fp)%Z in
    let v := (inject_Z mant * Qpower 10 (ex - Z.of_nat n2))%Q in
    Some (Qred (if neg then - v else v)%Q)
  else None.

(** [float(s)] for a [str] *)
Definition float_of_string (s : string) : exc float :=
  let '(neg, r) := take_sign (list_ascii_of_string (str_strip s)) in
  let low := str_lower (string_of_list_ascii r) in
  if String.eqb low "inf" || String.eqb low "infinity" then
    Return (if neg then NInf else PInf)
  else if String.eqb low "nan" then Return NaN
  else
    match parse_decimal neg r with
    | Some q => Return (Fin q)
    | None =>
        Raise (Exn ValueError ("could not convert string to float: " ++ str_repr s))
    end.

(** [int(s)] for a [str] *)
Definition int_of_string (s : string) : exc Z :=
  let '(neg, r) := take_sign (list_ascii_of_string (str_strip s)) in
  match digitpart 0 0 r with
  | (v, S _, []) => Return (if neg then (- v)%Z else v)
  | _ =>
      Raise (Exn ValueError ("invalid literal for int() with base 10: " ++ str_repr s))
  end.

(** The decimal digits of a natural number. *)
Definition digits_of (z : Z) : string := NilZero.string_of_uint (N.to_uint (Z.to_N z)).

Fixpoint zeros (n : nat) : string :=
  match n with
  | O => ""
  | S n' => String "0" (zeros n')
  end.

(** [digits_of z] padded with zeros on the left to [width] characters. *)
Definition zero_pad (width : nat) (z : Z) : string :=
  let d := digits_of z in zeros (width - String.length d) ++ d.

(** A comma before every group of three digits, counted from the right. *)
Fixpoint group3_rev (k : nat) (l : list ascii) : list ascii :=
  match l with
  | [] => []
  | c :: r =>
      if Nat.eqb k 3 then ","%char :: c :: group3_rev 1 r
      else c :: group3_rev (S k) r
  end.

Definition group_thousands (d : string) : string :=
  string_of_list_ascii (rev (group3_rev 0 (rev (list_ascii_of_string d)))).

(** [format(z, ",")] for an [int] *)
Definition format_int_comma (z : Z) : string :=
  (if (z <? 0)%Z then "-" else "") ++ group_thousands (digits_of (Z.abs z)).

(** [format(x, ".{prec}f")] and [format(x, ",.{prec}f")] for a [float] *)
Definition format_f (comma : bool) (prec : nat) (x : float) : string :=
  match x with
  | Fin q =>
      let n := round_half_even (Qabs q * inject_Z (pow10 prec)) in
      let ip := digits_of (n / pow10 prec) in
      (if Qlt_le_dec q 0 then "-" else "")
      ++ (if comma then group_thousands ip else ip)
      ++ (match prec with O => "" | _ => "." ++ zero_pad prec (n mod pow10 prec) end)
  | PInf => "inf"
  | NInf => "-inf"
  | NaN => "nan"
  end.

(** The exponent [e] with [10^e <= q < 10^(e+1)], for [q > 0]. *)
Definition decimal_exponent (q : Q) : Z :=
  let e0 := (Z.of_nat (String.length (digits_of (Qnum q)))
             - Z.of_nat (String.length (digits_of (Z.pos (Qden q)))))%Z in
  if Qle_bool (Qpower 10 e0) q then e0 else (e0 - 1)%Z.

Fixpoint strip_zeros_rev (l : list ascii) : list ascii :=
  match l with
  | "0"%char :: r => strip_zeros_rev r
  | _ => l
  end.

(** [repr(x)] for a positive rational: up to 17 significant digits,
    positional for [1e-4 <= x < 1e16] and scientific otherwise. *)
Definition repr_positive (q : Q) : string :=
  let e := decimal_exponent q in
  let m := round_half_even (q * Qpower 10 (16 - e)) in
  let '(m, e) := if (m =? 10 ^ 17)%Z then ((10 ^ 16)%Z, (e + 1)%Z) else (m, e) in
  let ds := string_of_list_ascii
              (rev (strip_zeros_rev (rev (list_ascii_of_string (digits_of m))))) in
  let nd := String.length ds in
  if ((-4 <=? e) && (e <? 16))%Z then
    if (0 <=? e)%Z then
      let k := S (Z.to_nat e) in
      if (nd <=? k)%nat then ds ++ zeros (k - nd) ++ ".0"
      else substring 0 k ds ++ "." ++ substring k (nd - k) ds
    else "0." ++ zeros (Z.to_nat (- e - 1)) ++ ds
  else
    substring 0 1 ds
    ++ (if (nd <=? 1)%nat then "" else "." ++ substring 1 (nd - 1) ds)
    ++ "e" ++ (if (e <? 0)%Z then "-" else "+") ++ zero_pad 2 (Z.abs e).

(** [repr(x)], which is also [format(x, "")] *)
Definition float_repr (x : float) : string :=
  match x with
  | Fin q =>
      match (q ?= 0)%Q with
      | Eq => "0.0"
      | Lt => "-" ++ repr_positive (- q)
      | Gt => repr_positive q
      end
  | PInf => "inf"
  | NInf => "-inf"
  | NaN => "nan"
  end.

(** [format(x, ",")] for a [float]: [repr(x)] with the digits before the
    point grouped, when the representation is positional. *)
Definition format_float_comma (x : float) : string :=
  let r := float_repr x in
  match x, index 0 "." r, index 0 "e" r with
  | Fin q, Some i, None =>
      let '(sign, j) := if Qlt_le_dec q 0 then ("-", 1%nat) else ("", 0%nat) in
      sign ++ group_thousands (substring j (i - j) r)
      ++ substring i (String.length r - i) r
  | _, _, _ => r
  end.

(** ** Dynamically typed values of the upstream quote mapping *)

Inductive pyval :=
| PyNone
| PyInt (z : Z)
| PyFloat (x : float)
| PyStr (s : string).

(** Truth value of an object, as tested by [if v:] and [v or w]. *)
Definition truthy (v : pyval) : bool :=
  match v with
  | PyNone => false
  | PyInt z => negb (z =? 0)%Z
  | PyFloat x => negb (float_eq x (Fin 0))
  | PyStr s => negb (String.eqb s "")
  end.

(** [v or w] *)
Definition py_or (v w : pyval) : pyval := if truthy v then v else w.

(** [info.get(key)] and [info.get(key, dflt)] *)
Definition dict_get (info : gmap string pyval) (key : string) : pyval :=
  default PyNone (info !! key).
Definition dict_get_default (info : gmap string pyval) (key : string) (dflt : pyval) : pyval :=
  default dflt (info !! key).

(** [int(v)] *)
Definition py_int (v : pyval) : exc Z :=
  match v with
  | PyInt z => Return z
  | PyFloat (Fin q) => Return (Z.quot (Qnum q) (Z.pos (Qden q)))
  | PyFloat NaN => Raise (Exn ValueError "cannot convert float NaN to integer")
  | PyFloat _ => Raise (Exn OverflowError "cannot convert float infinity to integer")
  | PyStr s => int_of_string s
  | PyNone =>
      Raise (Exn TypeError
        "int() argument must be a string, a bytes-like object or a real number, not 'NoneType'")
  end.

(** [format(v, ",")] *)
Definition py_format_comma (v : pyval) : exc string :=
  match v with
  | PyInt z => Return (format_int_comma z)
  | PyFloat x => Return (format_float_comma x)
  | PyStr _ => Raise (Exn ValueError "Cannot specify ',' with 's'.")
  | PyNone => Raise (Exn TypeError "unsupported format string passed to NoneType.__format__")
  end.

(** [format(v, ".2f")] *)
Definition py_format_2f (v : pyval) : exc string :=
  match v with
  | PyInt z => Return (format_f false 2 (Fin (inject_Z z)))
  | PyFloat x => Return (format_f false 2 x)
  | PyStr _ => Raise (Exn ValueError "Unknown format code 'f' for object of type 'str'")
  | PyNone => Raise (Exn TypeError "unsupported format string passed to NoneType.__format__")
  end.

(** Field validation of the result models (pydantic, lax mode): an
    [Optional[float]] field takes [None], a float, an int or a numeric
    string; an [Optional[int]] field takes [None], an int, a float without
    fractional part or an integer string; an [Optional[str]] field takes
    [None] or a string.  The text of the validation report is abbreviated
    to the names of the model and of the field. *)
Definition validation_error {A} (model field : string) : exc A :=
  Raise (Exn ValidationError ("1 validation error for " ++ model ++ ": " ++ field)).

Definition validate_float (model field : string) (v : pyval) : exc (option float) :=
  match v with
  | PyNone => Return None
  | PyFloat x => Return (Some x)
  | PyInt z => Return (Some (Fin (inject_Z z)))
  | PyStr s =>
      match float_of_string s with
      | Return x => Return (Some x)
      | Raise _ => validation_error model field
      end
  end.

Definition validate_int (model field : string) (v : pyval) : exc (option Z) :=
  match v with
  | PyNone => Return None
  | PyInt z => Return (Some z)
  | PyFloat (Fin q) =>
      if Qis_int q then Return (Some (Qto_int q)) else validation_error model field
  | PyFloat _ => validation_error model field
  | PyStr s =>
      match int_of_string s with
      | Return z => Return (Some z)
      | Raise _ => validation_error model field
      end
  end.

Definition validate_str (model field : string) (v : pyval) : exc (option string) :=
  match v with
  | PyNone => Return None
  | PyStr s => Return (Some s)
  | _ => validation_error model field
  end.

(** ** The result models *)

Module StockPriceData.
Record t := mk {
  symbol : string;
  current_price : option float;
  market_cap : option Z;
  pe_ratio : option float;
  week_52_high : option float;
  week_52_low : option float;
  formatted_summary : string;
  error : option string
}.
End StockPriceData.

Module CompanyInfo.
Record t := mk {
  symbol : string;
  name : option string;
  sector : option string;
  industry : option string;
  country : option string;
  employees : option Z;
  business_summary : option string;
  error : option string
}.
End CompanyInfo.

Module FinancialHistoryResult.
Record t := mk {
  symbol : string;
  period : string;
  start_price : option float;
  end_price : option float;
  total_return_percent : option float;
  cagr_percent : option float;
  volatility_percent : option float;
  max_drawdown_percent : option float;
  trading_days : option Z;
  formatted_summary : option string;
  error : option string
}.
End FinancialHistoryResult.

Module CompoundGrowthResult.
Record t := mk {
  principal : float;
  annual_rate : float;
  years : float;
  future_value : float;
  total_growth : float;
  total_return_percent : float;
  formatted_summary : string;
  error : option string
}.
End CompoundGrowthResult.

Module FinancialRatioResult.
Record t := mk {
  numerator : float;
  denominator : float;
  ratio_type : string;
  ratio_value : option float;
  description : option string;
  interpretation : option string;
  context : option string;
  formatted_summary : option string;
  error : option string
}.
End FinancialRatioResult.

(** One row of the frame returned by [Ticker.history]. *)
Record bar := mk_bar {
  Open : Q;
  High : Q;
  Low : Q;
  Close : Q;
  Volume : Z
}.

(** ** pandas series operations on the closing prices

    The closing prices of a frame are finite numbers; a series derived
    from them is a [list float]. *)

Definition is_nan (x : float) : bool :=
  match x with NaN => true | _ => false end.

(** [s.dropna()] *)
Definition dropna (xs : list float) : list float :=
  List.filter (fun x => negb (is_nan x)) xs.

(** [s.pct_change()]: [s[i] / s[i-1] - 1], NaN at the first position. *)
Fixpoint pct_change_from (prev : float) (cs : list float) : list float :=
  match cs with
  | [] => []
  | c :: r => fsub (np_div c prev) (Fin 1) :: pct_change_from c r
  end.

Definition pct_change (cs : list float) : list float :=
  match cs with
  | [] => []
  | c :: r => NaN :: pct_change_from c r
  end.

Definition Qmax2 (a b : Q) : Q := if Qle_bool a b then b else a.

(** [s.expanding().max()]: the running maximum. *)
Fixpoint expanding_max_from (m : Q) (cs : list Q) : list Q :=
  match cs with
  | [] => []
  | c :: r => Qmax2 m c :: expanding_max_from (Qmax2 m c) r
  end.

Definition expanding_max (cs : list Q) : list Q :=
  match cs with
  | [] => []
  | c :: r => c :: expanding_max_from c r
  end.

(** [s.min()]: the least value that is not NaN; NaN when there is none. *)
Definition fmin2 (x y : float) : float := if float_le x y then x else y.

Definition pd_min (xs : list float) : float :=
  match dropna xs with
  | [] => NaN
  | x :: r => fold_left fmin2 r x
  end.

Definition finite_value (x : float) : option Q :=
  match x with Fin q => Some q | _ => None end.

Definition Qsum (qs : list Q) : Q := fold_right Qplus 0%Q qs.

(** The sample variance (divisor [n - 1]) of two or more values. *)
Definition sample_variance (qs : list Q) : Q :=
  let n := inject_Z (Z.of_nat (length qs)) in
  let mean := (Qsum qs / n)%Q in
  (Qsum (map (fun q => (q - mean) * (q - mean))%Q qs) / (n - 1))%Q.

(** [s.iloc[0]] and [s.iloc[-1]] *)
Definition iloc_first (cs : list Q) : exc Q :=
  match cs with
  | c :: _ => Return c
  | [] => Raise (Exn IndexError "single positional indexer is out-of-bounds")
  end.

Definition iloc_last (cs : list Q) : exc Q :=
  match cs with
  | c :: r => Return (List.last r c)
  | [] => Raise (Exn IndexError "single positional indexer is out-of-bounds")
  end.

(** [parts[i]] *)
Definition list_index (parts : list string) (i : nat) : exc string :=
  match nth_error parts i with
  | Some p => Return p
  | None => Raise (Exn IndexError "list index out of range")
  end.

(** ** The tools *)

Section Tools.

(** The real power [b ** e] for [b > 0] and an exponent that is not an
    integer, and the real square root. *)
Variable libm_pow : Q -> Q -> Q.
Variable libm_sqrt : Q -> Q.

(** [yf.Ticker(symbol).info] and [yf.Ticker(symbol).history(period=period)] *)
Variable fetch_info : string -> exc (gmap string pyval).
Variable fetch_history : string -> string -> exc (list bar).

Definition real_pow (b e : Q) : Q :=
  if Qis_int e then Qpower b (Qto_int e) else libm_pow b e.

(** C's [pow], which is numpy's [**] on [float64]. *)
Definition c_pow (v w : float) : float :=
  if float_eq w (Fin 0) then Fin 1
  else if float_eq v (Fin 1) then Fin 1
  else
    match v, w with
    | NaN, _ | _, NaN => NaN
    | Fin b, PInf =>
        match (Qabs b ?= 1)%Q with Eq => Fin 1 | Gt => PInf | Lt => Fin 0 end
    | Fin b, NInf =>
        match (Qabs b ?= 1)%Q with Eq => Fin 1 | Gt => Fin 0 | Lt => PInf end
    | PInf, PInf | NInf, PInf => PInf
    | PInf, NInf | NInf, NInf => Fin 0
    | PInf, Fin e => if Qle_bool e 0 then Fin 0 else PInf
    | NInf, Fin e =>
        if Qle_bool e 0 then Fin 0 else if is_odd_integer w then NInf else PInf
    | Fin b, Fin e =>
        match (b ?= 0)%Q with
        | Eq => if Qle_bool 0 e then Fin 0 else PInf
        | Gt => Fin (real_pow b e)
        | Lt => if Qis_int e then Fin (Qpower b (Qto_int e)) else NaN
        end
    end.

(** The operator [**] on Python floats.  Zero to a negative power raises;
    a negative base with a fractional exponent gives a [complex], which the
    tools pass to [round], where [TypeError] is raised: the exception is
    raised here instead. *)
Definition float_pow (v w : float) : exc float :=
  match v, w with
  | Fin b, Fin e =>
      if Qeq_bool b 0 && negb (Qle_bool 0 e) then
        Raise (Exn ZeroDivisionError "0.0 cannot be raised to a negative power")
      else if negb (Qle_bool 0 b) && negb (Qis_int e) then
        Raise (Exn TypeError "type complex doesn't define __round__ method")
      else Return (c_pow v w)
  | _, _ => Return (c_pow v w)
  end.

(** [s.std()]: NaN for fewer than two values, and when a value is
    infinite. *)
Definition pd_std (xs : list float) : float :=
  match mapM finite_value (dropna xs) with
  | Some qs =>
      if (length qs <? 2)%nat then NaN else Fin (libm_sqrt (sample_variance qs))
  | None => NaN
  end.

(** *** [get_stock_price] *)

(** The statements of the [try] block, after the symbol is normalised. *)
Definition stock_price_body (symbol : string) : exc StockPriceData.t :=
  info ← fetch_info symbol;
  let current_price :=
    py_or (dict_get info "currentPrice") (dict_get info "regularMarketPrice") in
  let market_cap := dict_get info "marketCap" in
  let pe_ratio := py_or (dict_get info "trailingPE") (dict_get info "forwardPE") in
  let week_52_high := dict_get info "fiftyTwoWeekHigh" in
  let week_52_low := dict_get info "fiftyTwoWeekLow" in
  market_cap ←
    (if truthy market_cap then z ← py_int market_cap; mret (PyInt z)
     else mret market_cap);
  let summary_parts := ["Stock: " ++ symbol] in
  summary_parts ←
    (if truthy current_price then
       s ← py_format_2f current_price;
       mret (list_append summary_parts ("Price: $" ++ s))
     else mret summary_parts);
  summary_parts ←
    (if truthy market_cap then
       s ← py_format_comma market_cap;
       mret (list_append summary_parts ("Market Cap: $" ++ s))
     else mret summary_parts);
  summary_parts ←
    (if truthy pe_ratio then
       s ← py_format_2f pe_ratio;
       mret (list_append summary_parts ("P/E: " ++ s))
     else mret summary_parts);
  summary_parts ←
    (if truthy week_52_high && truthy week_52_low then
       lo ← py_format_2f week_52_low;
       hi ← py_format_2f week_52_high;
       mret (list_append summary_parts ("52W Range: $" ++ lo ++ " - $" ++ hi))
     else mret summary_parts);
  current_price ← validate_float "StockPriceData" "current_price" current_price;
  market_cap ← validate_int "StockPriceData" "market_cap" market_cap;
  pe_ratio ← validate_float "StockPriceData" "pe_ratio" pe_ratio;
  week_52_high ← validate_float "StockPriceData" "week_52_high" week_52_high;
  week_52_low ← validate_float "StockPriceData" "week_52_low" week_52_low;
  mret {| StockPriceData.symbol := symbol;
          StockPriceData.current_price := current_price;
          StockPriceData.market_cap := market_cap;
          StockPriceData.pe_ratio := pe_ratio;
          StockPriceData.week_52_high := week_52_high;
          StockPriceData.week_52_low := week_52_low;
          StockPriceData.formatted_summary := str_join " | " summary_parts;
          StockPriceData.error := None |}.

(** The result built by the [except] block. *)
Definition stock_price_error (symbol : string) (e : exn) : StockPriceData.t :=
  {| StockPriceData.symbol := symbol;
     StockPriceData.current_price := None;
     StockPriceData.market_cap := None;
     StockPriceData.pe_ratio := None;
     StockPriceData.week_52_high := None;
     StockPriceData.week_52_low := None;
     StockPriceData.formatted_summary :=
       "Error retrieving stock data for " ++ symbol ++ ": " ++ str_exn e;
     StockPriceData.error := Some (str_exn e) |}.

Definition get_stock_price (symbol : string) : exc StockPriceData.t :=
  let symbol := str_strip (str_upper symbol) in
  try_except (stock_price_body symbol) (fun e => mret (stock_price_error symbol e)).

(** *** [get_company_info] *)

Definition company_info_body (symbol : string) : exc CompanyInfo.t :=
  info ← fetch_info symbol;
  name ← validate_str "CompanyInfo" "name"
           (py_or (dict_get info "longName") (dict_get info "shortName"));
  sector ← validate_str "CompanyInfo" "sector" (dict_get info "sector");
  industry ← validate_str "CompanyInfo" "industry" (dict_get info "industry");
  country ← validate_str "CompanyInfo" "country" (dict_get info "country");
  employees ← validate_int "CompanyInfo" "employees" (dict_get info "fullTimeEmployees");
  business_summary ←
    validate_str "CompanyInfo" "business_summary"
      (dict_get_default info "longBusinessSummary"
         (PyStr "No business summary available"));
  mret {| CompanyInfo.symbol := symbol;
          CompanyInfo.name := name;
          CompanyInfo.sector := sector;
          CompanyInfo.industry := industry;
          CompanyInfo.country := country;
          CompanyInfo.employees := employees;
          CompanyInfo.business_summary := business_summary;
          CompanyInfo.error := None |}.

Definition company_info_error (symbol : string) (e : exn) : CompanyInfo.t :=
  {| CompanyInfo.symbol := symbol;
     CompanyInfo.name := None;
     CompanyInfo.sector := None;
     CompanyInfo.industry := None;
     CompanyInfo.country := None;
     CompanyInfo.employees := None;
     CompanyInfo.business_summary :=
       Some ("Error retrieving company info for " ++ symbol ++ ": " ++ str_exn e);
     CompanyInfo.error := Some (str_exn e) |}.

Definition get_company_info (symbol : string) : exc CompanyInfo.t :=
  let symbol := str_strip (str_upper symbol) in
  try_except (company_info_body symbol) (fun e => mret (company_info_error symbol e)).

(** *** [get_financial_history] *)

(** The result returned when the frame is empty. *)
Definition no_data_result (symbol period : string) : FinancialHistoryResult.t :=
  {| FinancialHistoryResult.symbol := symbol;
     FinancialHistoryResult.period := period;
     FinancialHistoryResult.start_price := None;
     FinancialHistoryResult.end_price := None;
     FinancialHistoryResult.total_return_percent := None;
     FinancialHistoryResult.cagr_percent := None;
     FinancialHistoryResult.volatility_percent := None;
     FinancialHistoryResult.max_drawdown_percent := None;
     FinancialHistoryResult.trading_days := None;
     FinancialHistoryResult.formatted_summary :=
       Some ("No historical data available for " ++ symbol);
     FinancialHistoryResult.error := Some "No data available" |}.

(** The metrics of a frame that is not empty. *)
Definition history_metrics (symbol period : string) (hist : list bar)
  : exc FinancialHistoryResult.t :=
  let close := map Close hist in
  start_price ← iloc_first close;
  end_price ← iloc_last close;
  let total_return :=
    fmul (np_div (fsub (Fin end_price) (Fin start_price)) (Fin start_price)) (Fin 100) in
  let years := Fin (inject_Z (Z.of_nat (length hist)) / 252) in
  cagr ←
    (if float_gt years (Fin 0) then
       e ← float_div (Fin 1) years;
       mret (fmul (fsub (c_pow (np_div (Fin end_price) (Fin start_price)) e) (Fin 1))
                  (Fin 100))
     else mret (Fin 0));
  let daily_returns := dropna (pct_change (map Fin close)) in
  let volatility := fmul (fmul (pd_std daily_returns) (Fin (libm_sqrt 252))) (Fin 100) in
  let rolling_max := expanding_max close in
  let drawdown :=
    zip_with (fun c m => np_div (fsub (Fin c) (Fin m)) (Fin m)) close rolling_max in
  let max_drawdown := fmul (pd_min drawdown) (Fin 100) in
  let formatted_summary :=
    symbol ++ " Performance (" ++ period ++ "): Total Return: "
    ++ format_f false 2 total_return ++ "%, CAGR: " ++ format_f false 2 cagr
    ++ "%, Volatility: " ++ format_f false 2 volatility
    ++ "%, Max Drawdown: " ++ format_f false 2 max_drawdown ++ "%" in
  mret {| FinancialHistoryResult.symbol := symbol;
          FinancialHistoryResult.period := period;
          FinancialHistoryResult.start_price := Some (round_nd (Fin start_price) 2);
          FinancialHistoryResult.end_price := Some (round_nd (Fin end_price) 2);
          FinancialHistoryResult.total_return_percent := Some (round_nd total_return 2);
          FinancialHistoryResult.cagr_percent := Some (round_nd cagr 2);
          FinancialHistoryResult.volatility_percent := Some (round_nd volatility 2);
          FinancialHistoryResult.max_drawdown_percent := Some (round_nd max_drawdown 2);
          FinancialHistoryResult.trading_days := Some (Z.of_nat (length hist));
          FinancialHistoryResult.formatted_summary := Some formatted_summary;
          FinancialHistoryResult.error := None |}.

Definition financial_history_body (symbol period : string)
  : exc FinancialHistoryResult.t :=
  hist ← fetch_history symbol period;
  match hist with
  | [] => mret (no_data_result symbol period)
  | _ => history_metrics symbol period hist
  end.

Definition financial_history_error (symbol period : string) (e : exn)
  : FinancialHistoryResult.t :=
  {| FinancialHistoryResult.symbol := symbol;
     FinancialHistoryResult.period := period;
     FinancialHistoryResult.start_price := None;
     FinancialHistoryResult.end_price := None;
     FinancialHistoryResult.total_return_percent := None;
     FinancialHistoryResult.cagr_percent := None;
     FinancialHistoryResult.volatility_percent := None;
     FinancialHistoryResult.max_drawdown_percent := None;
     FinancialHistoryResult.trading_days := None;
     FinancialHistoryResult.formatted_summary :=
       Some ("Error retrieving financial history: " ++ str_exn e);
     FinancialHistoryResult.error := Some (str_exn e) |}.

(** [parts[0].upper() if parts else query.upper()] and
    [parts[1].lower() if len(parts) > 1 else "1y"] *)
Definition query_symbol (query : string) : string :=
  match str_split (str_strip query) with
  | p :: _ => str_upper p
  | [] => str_upper query
  end.

Definition query_period (query : string) : string :=
  match str_split (str_strip query) with
  | _ :: p :: _ => str_lower p
  | _ => "1y"
  end.

(** The statements that parse the query raise nothing on a [str], so that
    [symbol] and [period] are bound wherever the body raises: the handler's
    tests ['symbol' in locals()] and ['period' in locals()] hold and its
    ['UNKNOWN'] alternatives are not taken. *)
Definition get_financial_history (query : string) : exc FinancialHistoryResult.t :=
  let symbol := query_symbol query in
  let period := query_period query in
  try_except (financial_history_body symbol period)
    (fun e => mret (financial_history_error symbol period e)).

(** *** [calculate_compound_growth] *)

Definition compound_growth_body (query : string) : exc CompoundGrowthResult.t :=
  let parts := str_split (str_strip query) in
  if (length parts <? 3)%nat then
    Raise (Exn ValueError "Query must contain principal, annual_rate, and years")
  else
    s0 ← list_index parts 0; principal ← float_of_string s0;
    s1 ← list_index parts 1; annual_rate ← float_of_string s1;
    s2 ← list_index parts 2; years ← float_of_string s2;
    if float_le years (Fin 0) || float_le principal (Fin 0) then
      Raise (Exn ValueError "Principal and years must be positive")
    else
      growth ← float_pow (fadd (Fin 1) annual_rate) years;
      let future_value := fmul principal growth in
      let total_growth := fsub future_value principal in
      ratio ← float_div future_value principal;
      let total_return_pct := fmul (fsub ratio (Fin 1)) (Fin 100) in
      let formatted_summary :=
        "Investment: $" ++ format_f true 2 principal ++ " at "
        ++ format_f false 2 (fmul annual_rate (Fin 100)) ++ "% for "
        ++ float_repr years ++ " years → Future Value: $"
        ++ format_f true 2 future_value ++ " (Total Return: "
        ++ format_f false 2 total_return_pct ++ "%)" in
      mret {| CompoundGrowthResult.principal := principal;
              CompoundGrowthResult.annual_rate := annual_rate;
              CompoundGrowthResult.years := years;
              CompoundGrowthResult.future_value := round_nd future_value 2;
              CompoundGrowthResult.total_growth := round_nd total_growth 2;
              CompoundGrowthResult.total_return_percent := round_nd total_return_pct 2;
              CompoundGrowthResult.formatted_summary := formatted_summary;
              CompoundGrowthResult.error := None |}.

Definition compound_growth_error (e : exn) : CompoundGrowthResult.t :=
  {| CompoundGrowthResult.principal := Fin 0;
     CompoundGrowthResult.annual_rate := Fin 0;
     CompoundGrowthResult.years := Fin 0;
     CompoundGrowthResult.future_value := Fin 0;
     CompoundGrowthResult.total_growth := Fin 0;
     CompoundGrowthResult.total_return_percent := Fin 0;
     CompoundGrowthResult.formatted_summary := "";
     CompoundGrowthResult.error := Some ("Calculation error: " ++ str_exn e) |}.

Definition calculate_compound_growth (query : string) : exc CompoundGrowthResult.t :=
  try_except (compound_growth_body query) (fun e => mret (compound_growth_error e)).

(** *** [calculate_financial_ratio] *)

(** The table [ratio_info], built for the ratio at hand. *)
Definition ratio_info (ratio_value : float) : gmap string (string * string) :=
  <[ "pe" := ("Price-to-Earnings Ratio",
              if float_gt ratio_value (Fin 25) then "High"
              else if float_gt ratio_value (Fin 15) then "Moderate" else "Low") ]>
  (<[ "debt_to_equity" := ("Debt-to-Equity Ratio",
              if float_gt ratio_value (Fin 1) then "High leverage" else "Conservative") ]>
  (<[ "current" := ("Current Ratio",
              if float_gt ratio_value (Fin 1.5) then "Good liquidity"
              else "Potential concern") ]>
  (<[ "roe" := ("Return on Equity",
              if float_gt ratio_value (Fin 0.15) then "Strong"
              else if float_gt ratio_value (Fin 0.10) then "Average" else "Weak") ]>
  (<[ "generic" := ("Financial Ratio", "Custom calculation") ]> ∅)))).

(** [description, context = ratio_info.get(ratio_type, ratio_info['generic'])] *)
Definition ratio_lookup (ratio_type : string) (ratio_value : float) : string * string :=
  let info := ratio_info ratio_value in
  default (info !!! "generic") (info !! ratio_type).


Definition financial_ratio_body (query : string) : exc FinancialRatioResult.t :=
  let parts := str_split (str_strip query) in
  if (length parts <? 2)%nat then
    Raise (Exn ValueError "Query must contain at least numerator and denominator")
  else
    s0 ← list_index parts 0; numerator ← float_of_string s0;
    s1 ← list_index parts 1; denominator ← float_of_string s1;
    ratio_type ←
      (if (2 <? length parts)%nat then s2 ← list_index parts 2; mret (str_lower s2)
       else mret "generic");
    if float_eq denominator (Fin 0) then
      Raise (Exn ValueError "Denominator cannot be zero")
    else
      ratio_value ← float_div numerator denominator;
      let '(description, context) := ratio_lookup ratio_type ratio_value in
      let interpretation := description ++ ": " ++ format_f false 2 ratio_value in
      let formatted_summary :=
        description ++ ": " ++ format_f false 2 ratio_value ++ " - " ++ context in
      mret {| FinancialRatioResult.numerator := numerator;
              FinancialRatioResult.denominator := denominator;
              FinancialRatioResult.ratio_type := ratio_type;
              FinancialRatioResult.ratio_value := Some (round_nd ratio_value 4);
              FinancialRatioResult.description := Some description;
              FinancialRatioResult.interpretation := Some interpretation;
              FinancialRatioResult.context := Some context;
              FinancialRatioResult.formatted_summary := Some formatted_summary;
              FinancialRatioResult.error := None |}.

Definition financial_ratio_error (e : exn) : FinancialRatioResult.t :=
  {| FinancialRatioResult.numerator := Fin 0;
     FinancialRatioResult.denominator := Fin 0;
     FinancialRatioResult.ratio_type := "error";
     FinancialRatioResult.ratio_value := None;
     FinancialRatioResult.description := None;
     FinancialRatioResult.interpretation := None;
     FinancialRatioResult.context := None;
     FinancialRatioResult.formatted_summary := None;
     FinancialRatioResult.error := Some ("Calculation error: " ++ str_exn e) |}.

Definition calculate_financial_ratio (query : string) : exc FinancialRatioResult.t :=
  try_except (financial_ratio_body query) (fun e => mret (financial_ratio_error e)).

End Tools.

(** ** Predicates used in the statements *)


(** A finite float that is at most 0. *)
Definition nonpos_fin (x : float) : Prop := exists d, x = Fin d /\ (d <= 0)%Q.

(** The queries of [calculate_compound_growth] that the claim C6 is
    about: fewer than three tokens, or a first token that reads as a
    principal [<= 0], or a third token that reads as a number of years
    [<= 0]. *)
Definition growth_query_invalid (query : string) : Prop :=
  let parts := str_split (str_strip query) in
  (length parts < 3)%nat
  \/ (exists s p, nth_error parts 0 = Some s /\ float_of_string s = Return p
                  /\ float_le p (Fin 0) = true)
  \/ (exists s y, nth_error parts 2 = Some s /\ float_of_string s = Return y
                  /\ float_le y (Fin 0) = true).







(** Strings of whitespace. *)
Fixpoint all_space (s : string) : bool :=
  match s with
  | EmptyString => true
  | String c r => isspace c && all_space r
  end.

(** An instance of the parameters [libm_pow] and [libm_sqrt], for
    evaluating the tools at inputs whose results do not depend on them. *)
Definition unit_pow (b e : Q) : Q := 1%Q.
Definition unit_sqrt (q : Q) : Q := 1%Q.

(** A row with the given close. *)
Definition flat_bar (c : Q) : bar :=
  {| Open := c; High := c; Low := c; Close := c; Volume := 0 |}.

(** ** Predicates used in further statements *)

(** A finite float between [-1] and [0]. *)
Definition unit_loss (x : float) : Prop :=
  exists d, x = Fin d /\ (-1 <= d)%Q /\ (d <= 0)%Q.

(** A finite float equal to 0. *)
Definition zero_fin (x : float) : Prop := exists d, x = Fin d /\ (d == 0)%Q.

(** A series in which no close is below the one before it. *)
Fixpoint nondecreasing (cs : list Q) : Prop :=
  match cs with
  | a :: (b :: _) as r => (a <= b)%Q /\ nondecreasing r
  | _ => True
  end.




Definition text_value (v : pyval) : option string :=
  match v with
  | PyStr s => Some s
  | _ => None
  end.

Definition count_value (v : pyval) : option Z :=
  match v with
  | PyInt z => Some z
  | _ => None
  end.

(** A value that is [None] or a string, and one that is [None] or an
    int. *)
Definition is_text (v : pyval) : Prop :=
  match v with
  | PyNone | PyStr _ => True
  | _ => False
  end.

Definition is_count (v : pyval) : Prop :=
  match v with
  | PyNone | PyInt _ => True
  | _ => False
  end.

(** A quote mapping in which every field that [get_company_info] reads is
    absent or of the type of the result field. *)
Definition well_formed_profile (info : gmap string pyval) : Prop :=
  is_text (dict_get info "longName")
  /\ is_text (dict_get info "shortName")
  /\ is_text (dict_get info "sector")
  /\ is_text (dict_get info "industry")
  /\ is_text (dict_get info "country")
  /\ is_count (dict_get info "fullTimeEmployees")
  /\ is_text (dict_get info "longBusinessSummary").

(** ** The tool registry

    The statements at module level that build [FINANCIAL_TOOLS].  The
    search tool is an object of a type [search] given by its library;
    [TAVILY_API_KEY] is the attribute [config.TAVILY_API_KEY] and
    [TavilySearch] the constructor, each of which returns or raises; the
    second component of the result is what is printed. *)

Record tavily_args := {
  api_key : string;
  max_results : Z;
  search_depth : string;
  include_answer : bool;
  include_raw_content : bool;
  include_images : bool
}.

Section Registry.

Variable search : Type.
Variable TAVILY_API_KEY : exc string.
Variable TavilySearch : tavily_args -> exc search.

Inductive tool :=
| tool_get_stock_price
| tool_get_company_info
| tool_get_financial_history
| tool_calculate_compound_growth
| tool_calculate_financial_ratio
| tool_tavily_search (t : search).

Definition tavily_init : exc search :=
  key ← TAVILY_API_KEY;
  TavilySearch {| api_key := key;
                  max_results := 5;
                  search_depth := "advanced";
                  include_answer := true;
                  include_raw_content := false;
                  include_images := false |}.

Definition load_financial_tools : list tool * list string :=
  let '(FINANCIAL_TOOLS, printed) :=
    match tavily_init with
    | Return tavily_search =>
        ([tool_get_stock_price;
          tool_get_company_info;
          tool_get_financial_history;
          tool_calculate_compound_growth;
          tool_calculate_financial_ratio;
          tool_tavily_search tavily_search], [])
    | Raise e =>
        ([tool_get_stock_price;
          tool_get_company_info;
          tool_get_financial_history;
          tool_calculate_compound_growth;
          tool_calculate_financial_ratio],
         ["Warning: Tavily search not available: " ++ str_exn e])
    end in
  (FINANCIAL_TOOLS,
   list_append printed
     ("Loaded " ++ digits_of (Z.of_nat (length FINANCIAL_TOOLS)) ++ " financial tools")).

End Registry.

Arguments tool_get_stock_price {search}.
Arguments tool_get_company_info {search}.
Arguments tool_get_financial_history {search}.
Arguments tool_calculate_compound_growth {search}.
Arguments tool_calculate_financial_ratio {search}.
Arguments tool_tavily_search {search} t.

(** * Properties *)

(** ** The exception monad *)

Lemma bind_return_inv {A B} (m : exc A) (f : A -> exc B) (b : B) :
  m ≫= f = Return b -> exists a, m = Return a /\ f a = Return b.
Proof. destruct m as [a|e]; cbn; [eauto | discriminate]. Qed.

Lemma try_except_total {A} (body : exc A) (h : exn -> A) :
  exists a, try_except body (fun e => mret (h e)) = Return a
            /\ (forall r, body = Return r -> a = r)
            /\ (forall e, body = Raise e -> a = h e).
Proof.
  destruct body as [r|e]; cbn; eexists; (split; [reflexivity|]); split; congruence.
Qed.

(** ** Strings *)




















(** ** Rounding *)

Lemma pow10_pos (n : nat) : (0 < pow10 n)%Z.
Proof. unfold pow10. apply Z.pow_pos_nonneg; lia. Qed.

Lemma inject_pow10_pos (n : nat) : (0 < inject_Z (pow10 n))%Q.
Proof. change 0%Q with (inject_Z 0). rewrite <- Zlt_Qlt. apply pow10_pos. Qed.

Lemma round_half_even_bounds (q : Q) :
  (Qfloor q <= round_half_even q <= Qfloor q + 1)%Z.
Proof.
  unfold round_half_even.
  destruct (q - inject_Z (Qfloor q) ?= 1 # 2)%Q; [destruct (Z.even _)| |]; lia.
Qed.

Lemma round_half_even_nonneg (q : Q) : (0 <= q)%Q -> (0 <= round_half_even q)%Z.
Proof.
  intros H. pose proof (round_half_even_bounds q) as [Hb _].
  apply Qfloor_resp_le in H. change (Qfloor 0) with 0%Z in H. lia.
Qed.

Lemma round_half_even_nonpos (q : Q) : (q <= 0)%Q -> (round_half_even q <= 0)%Z.
Proof.
  intros H. pose proof (Qfloor_le q) as Hf.
  assert (Hf0 : (Qfloor q <= 0)%Z).
  { apply Qfloor_resp_le in H. exact H. }
  destruct (Z.eq_dec (Qfloor q) 0%Z) as [E|E].
  - unfold round_half_even. rewrite E in *. simpl in Hf.
    assert (Hq : (q - inject_Z 0 < 1 # 2)%Q) by (unfold inject_Z; lra).
    rewrite Qlt_alt in Hq. rewrite Hq. lia.
  - pose proof (round_half_even_bounds q). lia.
Qed.

Lemma round_q_nonneg (q : Q) (n : nat) : (0 <= q)%Q -> (0 <= round_q q n)%Q.
Proof.
  intros H. unfold round_q. rewrite Qred_correct.
  pose proof (inject_pow10_pos n) as Hp.
  assert (Hr : (0 <= inject_Z (round_half_even (q * inject_Z (pow10 n))))%Q).
  { change 0%Q with (inject_Z 0). rewrite <- Zle_Qle.
    apply round_half_even_nonneg. nra. }
  apply Qle_shift_div_l; lra.
Qed.

Lemma round_q_nonpos (q : Q) (n : nat) : (q <= 0)%Q -> (round_q q n <= 0)%Q.
Proof.
  intros H. unfold round_q. rewrite Qred_correct.
  pose proof (inject_pow10_pos n) as Hp.
  assert (Hr : (inject_Z (round_half_even (q * inject_Z (pow10 n))) <= 0)%Q).
  { change 0%Q with (inject_Z 0). rewrite <- Zle_Qle.
    apply round_half_even_nonpos.
    nra. }
  apply Qle_shift_div_r; lra.
Qed.

Lemma round_q_zero (q : Q) (n : nat) : (q == 0)%Q -> (round_q q n == 0)%Q.
Proof.
  intros H. apply Qle_antisym; [apply round_q_nonpos | apply round_q_nonneg]; lra.
Qed.

Lemma round_half_even_near (q : Q) (n : Z) :
  (inject_Z n - (1 # 2) < q)%Q -> (q < inject_Z n + (1 # 2))%Q -> round_half_even q = n.
Proof.
  intros Hlo Hhi. unfold round_half_even.
  pose proof (Qfloor_le q) as Hf. pose proof (Qlt_floor q) as Hf'.
  rewrite inject_Z_plus in Hf'. change (inject_Z 1) with 1%Q in Hf'.
  assert (Hcase : (Qfloor q = n \/ Qfloor q = n - 1)%Z).
  { assert (H1 : (inject_Z (Qfloor q) < inject_Z (n + 1))%Q).
    { rewrite inject_Z_plus. change (inject_Z 1) with 1%Q.
      generalize dependent (inject_Z (Qfloor q)). generalize dependent (inject_Z n).
      intros; lra. }
    assert (H2 : (inject_Z n + inject_Z (-2) < inject_Z (Qfloor q))%Q).
    { clear H1. change (inject_Z (-2)) with (-2 # 1)%Q.
      generalize dependent (inject_Z (Qfloor q)). generalize dependent (inject_Z n).
      intros; lra. }
    rewrite <- inject_Z_plus in H2. rewrite <- Zlt_Qlt in H1, H2. lia. }
  destruct Hcase as [E|E]; rewrite E in *.
  - assert (Hr : (q - inject_Z n < 1 # 2)%Q).
    { generalize dependent (inject_Z n). intros; lra. }
    rewrite Qlt_alt in Hr. now rewrite Hr.
  - replace (n - 1)%Z with (n + -1)%Z in * by lia.
    rewrite inject_Z_plus in *. change (inject_Z (-1)) with (-1 # 1)%Q in *.
    assert (Hr : (q - (inject_Z n + (-1 # 1)) > 1 # 2)%Q).
    { generalize dependent (inject_Z n). intros; lra. }
    rewrite Qgt_alt in Hr. rewrite Hr. lia.
Qed.

Lemma round_q_near (q : Q) (n : Z) :
  (inject_Z n - (1 # 2) < q * 100)%Q -> (q * 100 < inject_Z n + (1 # 2))%Q ->
  (round_q q 2 == inject_Z n / 100)%Q.
Proof.
  intros Hlo Hhi. unfold round_q. rewrite Qred_correct.
  change (inject_Z (pow10 2)) with 100%Q.
  now rewrite (round_half_even_near (q * 100) n Hlo Hhi).
Qed.

(** ** Comparisons and division of finite floats *)

Lemma float_gt_fin (a b : Q) : float_gt (Fin a) (Fin b) = true <-> (b < a)%Q.
Proof.
  unfold float_gt, float_lt, fcompare. rewrite Qlt_alt.
  destruct (b ?= a)%Q; split; congruence.
Qed.

Lemma float_le_fin (a b : Q) : float_le (Fin a) (Fin b) = true <-> (a <= b)%Q.
Proof.
  unfold float_le, fcompare. rewrite Qle_alt.
  destruct (a ?= b)%Q; split; congruence.
Qed.

Lemma float_eq_fin (a b : Q) : float_eq (Fin a) (Fin b) = true <-> (a == b)%Q.
Proof.
  unfold float_eq, fcompare. rewrite Qeq_alt.
  destruct (a ?= b)%Q; split; congruence.
Qed.

Lemma float_div_nonzero (a b : Q) :
  ~ (b == 0)%Q -> float_div (Fin a) (Fin b) = Return (Fin (a / b)).
Proof.
  intros Hb. unfold float_div.
  destruct (float_eq (Fin b) (Fin 0)) eqn:E.
  - apply float_eq_fin in E. contradiction.
  - unfold np_div. destruct (Qeq_bool b 0) eqn:E'; [|reflexivity].
    apply Qeq_bool_iff in E'. contradiction.
Qed.

(** ** Closing-price series *)

Lemma np_div_pos (a b : Q) : (0 < b)%Q -> np_div (Fin a) (Fin b) = Fin (a / b).
Proof.
  intros Hb. unfold np_div.
  destruct (Qeq_bool b 0) eqn:E; [|reflexivity].
  apply Qeq_bool_iff in E. lra.
Qed.

Lemma fsub_fin (a b : Q) : fsub (Fin a) (Fin b) = Fin (a + - b).
Proof. reflexivity. Qed.

Lemma Qdiv_sign_nonpos (a b : Q) : (0 < b)%Q -> (a <= 0)%Q -> (a / b <= 0)%Q.
Proof. intros Hb Ha. apply Qle_shift_div_r; lra. Qed.


Lemma Qmax2_spec (a b : Q) : (a <= Qmax2 a b)%Q /\ (b <= Qmax2 a b)%Q.
Proof.
  unfold Qmax2. destruct (Qle_bool a b) eqn:E.
  - apply Qle_bool_iff in E. lra.
  - assert (~ (a <= b)%Q) by (rewrite <- Qle_bool_iff; congruence). lra.
Qed.

Lemma drawdown_from_nonpos (cs : list Q) (m : Q) :
  (0 < m)%Q ->
  Forall nonpos_fin
    (zip_with (fun c m => np_div (fsub (Fin c) (Fin m)) (Fin m)) cs
       (expanding_max_from m cs)).
Proof.
  revert m. induction cs as [|c r IH]; intros m Hm;
    cbn [zip_with expanding_max_from]; constructor.
  - destruct (Qmax2_spec m c) as [H1 H2].
    rewrite fsub_fin, np_div_pos by lra.
    eexists; split; [reflexivity|]. apply Qdiv_sign_nonpos; lra.
  - apply IH. destruct (Qmax2_spec m c). lra.
Qed.

Lemma drawdown_nonpos (cs : list Q) :
  Forall (fun c => 0 < c)%Q cs ->
  Forall nonpos_fin
    (zip_with (fun c m => np_div (fsub (Fin c) (Fin m)) (Fin m)) cs (expanding_max cs)).
Proof.
  destruct cs as [|c r]; intros H; cbn [zip_with expanding_max]; constructor.
  - inversion H; subst. rewrite fsub_fin, np_div_pos by assumption.
    eexists; split; [reflexivity|]. apply Qdiv_sign_nonpos; lra.
  - apply drawdown_from_nonpos. now inversion H.
Qed.

Lemma dropna_nonpos (xs : list float) : Forall nonpos_fin xs -> dropna xs = xs.
Proof.
  induction 1 as [|x r [d [-> _]] _ IH]; [reflexivity|].
  unfold dropna in *. simpl. now rewrite IH.
Qed.

Lemma fmin2_nonpos (x y : float) : nonpos_fin x -> nonpos_fin y -> nonpos_fin (fmin2 x y).
Proof. intros Hx Hy. unfold fmin2. now destruct (float_le x y). Qed.

Lemma fold_fmin2_nonpos (xs : list float) (x : float) :
  nonpos_fin x -> Forall nonpos_fin xs -> nonpos_fin (fold_left fmin2 xs x).
Proof.
  revert x. induction xs as [|y r IH]; intros x Hx H; simpl; [exact Hx|].
  inversion H; subst. apply IH; [now apply fmin2_nonpos | assumption].
Qed.

Lemma pd_min_nonpos (xs : list float) :
  xs <> [] -> Forall nonpos_fin xs -> nonpos_fin (pd_min xs).
Proof.
  intros Hne H. unfold pd_min. rewrite (dropna_nonpos xs H).
  destruct xs as [|x r]; [congruence|].
  inversion H; subst. now apply fold_fmin2_nonpos.
Qed.

(** ** [get_financial_history] on a series of positive closes *)

Section HistoryProperties.

Variable libm_pow : Q -> Q -> Q.
Variable libm_sqrt : Q -> Q.
Variable fetch_history : string -> string -> exc (list bar).

Lemma years_positive (n : nat) :
  (0 < inject_Z (Z.of_nat (S n)) / 252)%Q.
Proof.
  apply Qlt_shift_div_l; [reflexivity|].
  change (0 * 252)%Q with (inject_Z 0). rewrite <- Zlt_Qlt. lia.
Qed.

Lemma history_metrics_positive (symbol period : string) (b : bar) (rest : list bar) :
  let close := map Close (b :: rest) in
  let s := Close b in
  let e := List.last (map Close rest) (Close b) in
  let years := (inject_Z (Z.of_nat (length (b :: rest))) / 252)%Q in
  Forall (fun x => 0 < Close x)%Q (b :: rest) ->
  exists r dd,
    history_metrics libm_pow libm_sqrt symbol period (b :: rest) = Return r
    /\ FinancialHistoryResult.error r = None
    /\ FinancialHistoryResult.start_price r = Some (Fin (round_q s 2))
    /\ FinancialHistoryResult.end_price r = Some (Fin (round_q e 2))
    /\ FinancialHistoryResult.total_return_percent r
       = Some (Fin (round_q ((e + - s) / s * 100) 2))
    /\ FinancialHistoryResult.cagr_percent r
       = Some (round_nd (fmul (fsub (c_pow libm_pow (Fin (e / s)) (Fin (1 / years)))
                                    (Fin 1)) (Fin 100)) 2)
    /\ FinancialHistoryResult.volatility_percent r
       = Some (round_nd (fmul (fmul (pd_std libm_sqrt (dropna (pct_change (map Fin close))))
                                    (Fin (libm_sqrt 252))) (Fin 100)) 2)
    /\ pd_min (zip_with (fun c m => np_div (fsub (Fin c) (Fin m)) (Fin m)) close
                 (expanding_max close)) = Fin dd
    /\ FinancialHistoryResult.max_drawdown_percent r = Some (Fin (round_q (dd * 100) 2))
    /\ (dd <= 0)%Q
    /\ FinancialHistoryResult.trading_days r = Some (Z.of_nat (length (b :: rest))).
Proof.
  intros close s e years Hpos.
  assert (Hs : (0 < s)%Q) by (now inversion Hpos).
  assert (Hc : Forall (fun c => 0 < c)%Q close).
  { apply Forall_map. exact Hpos. }
  pose proof (drawdown_nonpos _ Hc) as Hd.
  assert (Hne : zip_with (fun c m => np_div (fsub (Fin c) (Fin m)) (Fin m)) close
                  (expanding_max close) <> []) by discriminate.
  destruct (pd_min_nonpos _ Hne Hd) as [dd [Hdd Hle]].
  unfold history_metrics. fold close.
  change (iloc_first close) with (Return s).
  change (iloc_last close) with (Return e).
  cbn [mbind exc_bind]. fold years.
  assert (Hy : (0 < years)%Q) by apply years_positive.
  rewrite (proj2 (float_gt_fin years 0) Hy).
  rewrite float_div_nonzero by lra.
  rewrite Hdd.
  rewrite fsub_fin, !np_div_pos by exact Hs.
  cbn [mbind exc_bind mret exc_ret].
  eexists. exists dd. split; [reflexivity|].
  cbn [FinancialHistoryResult.error FinancialHistoryResult.start_price
       FinancialHistoryResult.end_price FinancialHistoryResult.total_return_percent
       FinancialHistoryResult.cagr_percent FinancialHistoryResult.volatility_percent
       FinancialHistoryResult.max_drawdown_percent FinancialHistoryResult.trading_days].
  repeat split; try reflexivity; assumption.
Qed.

Lemma get_financial_history_metrics (query : string) (b : bar) (rest : list bar)
    (r : FinancialHistoryResult.t) :
  fetch_history (query_symbol query) (query_period query) = Return (b :: rest) ->
  history_metrics libm_pow libm_sqrt (query_symbol query) (query_period query) (b :: rest)
  = Return r ->
  get_financial_history libm_pow libm_sqrt fetch_history query = Return r.
Proof.
  intros Hf Hm. unfold get_financial_history, financial_history_body.
  rewrite Hf. cbn [mbind exc_bind]. rewrite Hm. reflexivity.
Qed.

(** C8: when the fetched series is empty, the result carries the error
    "No data available", a summary saying that no historical data is
    available for the symbol, and no numeric field. *)
Theorem empty_history_no_data (query : string) :
  fetch_history (query_symbol query) (query_period query) = Return [] ->
  exists r,
    get_financial_history libm_pow libm_sqrt fetch_history query = Return r
    /\ FinancialHistoryResult.error r = Some "No data available"
    /\ FinancialHistoryResult.formatted_summary r
       = Some ("No historical data available for " ++ FinancialHistoryResult.symbol r)
    /\ FinancialHistoryResult.symbol r = query_symbol query
    /\ FinancialHistoryResult.start_price r = None
    /\ FinancialHistoryResult.end_price r = None
    /\ FinancialHistoryResult.total_return_percent r = None
    /\ FinancialHistoryResult.cagr_percent r = None
    /\ FinancialHistoryResult.volatility_percent r = None
    /\ FinancialHistoryResult.max_drawdown_percent r = None
    /\ FinancialHistoryResult.trading_days r = None.
Proof.
  intros Hf. exists (no_data_result (query_symbol query) (query_period query)).
  split; [|repeat split].
  unfold get_financial_history, financial_history_body. now rewrite Hf.
Qed.


(** C10: for a fetched series of exactly one positive close the result is
    not an error: [total_return_percent] and [max_drawdown_percent] are 0,
    [trading_days] is 1 and [start_price] equals [end_price]; moreover
    [cagr_percent] is 0 and [volatility_percent] is NaN. *)
Theorem single_point_history (query : string) (b : bar) :
  fetch_history (query_symbol query) (query_period query) = Return [b] ->
  (0 < Close b)%Q ->
  exists r tr dd cagr,
    get_financial_history libm_pow libm_sqrt fetch_history query = Return r
    /\ FinancialHistoryResult.error r = None
    /\ FinancialHistoryResult.total_return_percent r = Some (Fin tr) /\ (tr == 0)%Q
    /\ FinancialHistoryResult.max_drawdown_percent r = Some (Fin dd) /\ (dd == 0)%Q
    /\ FinancialHistoryResult.trading_days r = Some 1%Z
    /\ FinancialHistoryResult.start_price r = FinancialHistoryResult.end_price r
    /\ FinancialHistoryResult.start_price r = Some (round_nd (Fin (Close b)) 2)
    /\ FinancialHistoryResult.cagr_percent r = Some (Fin cagr) /\ (cagr == 0)%Q
    /\ FinancialHistoryResult.volatility_percent r = Some NaN.
Proof.
  intros Hf Hpos.
  assert (Hall : Forall (fun x => 0 < Close x)%Q [b]) by (constructor; [exact Hpos|constructor]).
  destruct (history_metrics_positive (query_symbol query) (query_period query) b [] Hall)
    as (r & dd & Hr & Herr & Hsp & Hep & Htr & Hcagr & Hvol & Hmin & Hdd & _ & Hdays).
  cbn [map List.last length] in *.
  assert (Hone : float_eq (Fin (Close b / Close b)) (Fin 1) = true).
  { apply float_eq_fin. field. lra. }
  assert (Hc : c_pow libm_pow (Fin (Close b / Close b)) (Fin (1 / (inject_Z (Z.of_nat 1) / 252)))
               = Fin 1).
  { unfold c_pow. rewrite Hone.
    now replace (float_eq (Fin (1 / (inject_Z (Z.of_nat 1) / 252))) (Fin 0)) with false
      by reflexivity. }
  rewrite Hc in Hcagr.
  cbn [expanding_max zip_with] in Hmin.
  rewrite fsub_fin, np_div_pos in Hmin by exact Hpos.
  injection Hmin as Hmin. subst dd.
  exists r, (round_q ((Close b + - Close b) / Close b * 100) 2),
    (round_q ((Close b + - Close b) / Close b * 100) 2),
    (round_q ((1 + - 1) * 100) 2).
  split; [now apply (get_financial_history_metrics query b [])|].
  repeat split; try assumption.
  - apply round_q_zero. field. lra.
  - apply round_q_zero. field. lra.
  - now rewrite Hsp, Hep.
Qed.

End HistoryProperties.

(** ** [calculate_financial_ratio] *)

Lemma list_index_lookup (parts : list string) (i : nat) (s : string) :
  list_index parts i = Return s <-> nth_error parts i = Some s.
Proof.
  unfold list_index. destruct (nth_error parts i); split; congruence.
Qed.










(** ** [calculate_compound_growth] *)

Section GrowthProperties.

Variable libm_pow : Q -> Q -> Q.

Lemma compound_growth_body_return (query : string) (r : CompoundGrowthResult.t) :
  compound_growth_body libm_pow query = Return r ->
  exists s0 s2 p y,
    nth_error (str_split (str_strip query)) 0 = Some s0
    /\ nth_error (str_split (str_strip query)) 2 = Some s2
    /\ float_of_string s0 = Return p
    /\ float_of_string s2 = Return y
    /\ float_le p (Fin 0) = false
    /\ float_le y (Fin 0) = false
    /\ CompoundGrowthResult.principal r = p
    /\ CompoundGrowthResult.years r = y
    /\ CompoundGrowthResult.error r = None.
Proof.
  unfold compound_growth_body. intros H.
  destruct (length (str_split (str_strip query)) <? 3)%nat; [discriminate|].
  apply bind_return_inv in H as (s0 & Hs0 & H).
  apply bind_return_inv in H as (p & Hp & H).
  apply bind_return_inv in H as (s1 & _ & H).
  apply bind_return_inv in H as (a & _ & H).
  apply bind_return_inv in H as (s2 & Hs2 & H).
  apply bind_return_inv in H as (y & Hy & H).
  destruct (float_le y (Fin 0)) eqn:Hy0; [discriminate|].
  destruct (float_le p (Fin 0)) eqn:Hp0; [discriminate|].
  cbn [orb] in H.
  apply bind_return_inv in H as (g & _ & H).
  apply bind_return_inv in H as (q & _ & H).
  injection H as <-.
  apply list_index_lookup in Hs0, Hs2.
  exists s0, s2, p, y. cbn. repeat split; assumption.
Qed.

(** C6: a query with fewer than 3 tokens, or with a principal or a
    number of years that is at most 0, fails: the error is a message
    that starts with "Calculation error:" and every numeric field is
    0.0. *)
Theorem compound_growth_rejects_invalid (query : string) :
  growth_query_invalid query ->
  exists r msg,
    calculate_compound_growth libm_pow query = Return r
    /\ CompoundGrowthResult.error r = Some ("Calculation error: " ++ msg)
    /\ CompoundGrowthResult.principal r = Fin 0
    /\ CompoundGrowthResult.annual_rate r = Fin 0
    /\ CompoundGrowthResult.years r = Fin 0
    /\ CompoundGrowthResult.future_value r = Fin 0
    /\ CompoundGrowthResult.total_growth r = Fin 0
    /\ CompoundGrowthResult.total_return_percent r = Fin 0.
Proof.
  intros Hinv. unfold calculate_compound_growth.
  destruct (compound_growth_body libm_pow query) as [r|e] eqn:Hb; cbn.
  - exfalso.
    destruct (compound_growth_body_return _ _ Hb)
      as (s0 & s2 & p & y & Hs0 & Hs2 & Hp & Hy & Hp0 & Hy0 & _).
    destruct Hinv as [Hlen | [(s & p' & Hs & Hp' & Hle) | (s & y' & Hs & Hy' & Hle)]].
    + assert (nth_error (str_split (str_strip query)) 2 = None)
        by (apply nth_error_None; lia).
      congruence.
    + rewrite Hs0 in Hs. injection Hs as <-. rewrite Hp in Hp'. injection Hp' as <-.
      congruence.
    + rewrite Hs2 in Hs. injection Hs as <-. rewrite Hy in Hy'. injection Hy' as <-.
      congruence.
  - exists (compound_growth_error e), (str_exn e). repeat split.
Qed.

Lemma compound_growth_formula (query s0 s1 s2 : string) (rest : list string) (p a y : Q) :
  str_split (str_strip query) = s0 :: s1 :: s2 :: rest ->
  float_of_string s0 = Return (Fin p) ->
  float_of_string s1 = Return (Fin a) ->
  float_of_string s2 = Return (Fin y) ->
  (0 < p)%Q -> (0 < y)%Q -> (0 < 1 + a)%Q ->
  let future_value := fmul (Fin p) (c_pow libm_pow (Fin (1 + a)) (Fin y)) in
  exists r,
    calculate_compound_growth libm_pow query = Return r
    /\ CompoundGrowthResult.error r = None
    /\ CompoundGrowthResult.principal r = Fin p
    /\ CompoundGrowthResult.annual_rate r = Fin a
    /\ CompoundGrowthResult.years r = Fin y
    /\ CompoundGrowthResult.future_value r = round_nd future_value 2
    /\ CompoundGrowthResult.total_growth r = round_nd (fsub future_value (Fin p)) 2
    /\ CompoundGrowthResult.total_return_percent r
       = round_nd (fmul (fsub (np_div future_value (Fin p)) (Fin 1)) (Fin 100)) 2.
Proof.
  intros Hs H0 H1 H2 Hp Hy Ha future_value.
  unfold calculate_compound_growth, compound_growth_body.
  rewrite Hs. cbn [length Nat.ltb Nat.leb list_index nth_error mbind exc_bind].
  rewrite H0, H1, H2. cbn [mbind exc_bind].
  assert (Hy0 : float_le (Fin y) (Fin 0) = false).
  { destruct (float_le (Fin y) (Fin 0)) eqn:E; [|reflexivity].
    apply float_le_fin in E. lra. }
  assert (Hp0 : float_le (Fin p) (Fin 0) = false).
  { destruct (float_le (Fin p) (Fin 0)) eqn:E; [|reflexivity].
    apply float_le_fin in E. lra. }
  rewrite Hy0, Hp0. cbn [orb fadd].
  assert (Hpow : float_pow libm_pow (Fin (1 + a)) (Fin y)
                 = Return (c_pow libm_pow (Fin (1 + a)) (Fin y))).
  { unfold float_pow.
    destruct (Qeq_bool (1 + a) 0) eqn:E; [apply Qeq_bool_iff in E; lra|].
    destruct (Qle_bool 0 (1 + a)) eqn:E'; [reflexivity|].
    assert (~ (0 <= 1 + a)%Q) by (rewrite <- Qle_bool_iff; congruence). lra. }
  rewrite Hpow. cbn [mbind exc_bind]. fold future_value.
  assert (Hdiv : float_div future_value (Fin p) = Return (np_div future_value (Fin p))).
  { unfold float_div.
    destruct (float_eq (Fin p) (Fin 0)) eqn:E; [|reflexivity].
    apply float_eq_fin in E. lra. }
  rewrite Hdiv. cbn [mbind exc_bind mret exc_ret try_except].
  eexists. split; [reflexivity|]. repeat split.
Qed.

(** C3: on "10000 0.07 10" the tool returns, without error,
    [future_value] 19671.51, [total_growth] 9671.51 and
    [total_return_percent] 96.72: the values of
    [principal * (1 + rate) ** years], of [future_value - principal] and
    of [(future_value / principal - 1) * 100], each rounded to 2
    decimals.  The three roundings have a margin: any value within
    [1e-6] of the exact one rounds to the same two decimals. *)
Theorem compound_growth_example :
  let fv := (10000 * (1 + 0.07) ^ 10)%Q in
  (exists r,
      calculate_compound_growth libm_pow "10000 0.07 10" = Return r
      /\ CompoundGrowthResult.error r = None
      /\ CompoundGrowthResult.principal r = Fin 10000
      /\ CompoundGrowthResult.annual_rate r = Fin 0.07
      /\ CompoundGrowthResult.years r = Fin 10
      /\ CompoundGrowthResult.future_value r = Fin 19671.51
      /\ CompoundGrowthResult.total_growth r = Fin 9671.51
      /\ feq (CompoundGrowthResult.total_return_percent r) (Fin 96.72)
      /\ CompoundGrowthResult.future_value r = round_nd (Fin fv) 2
      /\ CompoundGrowthResult.total_growth r = round_nd (Fin (fv - 10000)) 2
      /\ CompoundGrowthResult.total_return_percent r
         = round_nd (Fin ((fv / 10000 - 1) * 100)) 2)
  /\ (forall x, (Qabs (x - fv) <= 1 # 1000000)%Q -> (round_q x 2 == 19671.51)%Q)
  /\ (forall x, (Qabs (x - (fv - 10000)) <= 1 # 1000000)%Q -> (round_q x 2 == 9671.51)%Q)
  /\ (forall x, (Qabs (x - (fv / 10000 - 1) * 100) <= 1 # 1000000)%Q ->
                (round_q x 2 == 96.72)%Q).
Proof.
  intros fv. split; [|split; [|split]].
  - destruct (compound_growth_formula "10000 0.07 10" "10000" "0.07" "10" []
                10000 0.07 10 eq_refl eq_refl eq_refl eq_refl eq_refl eq_refl eq_refl)
      as (r & Hr & Herr & Hp & Ha & Hy & Hfv & Htg & Htr).
    exists r. rewrite Hfv, Htg, Htr.
    repeat split; try assumption; vm_compute; reflexivity.
  - intros x Hx. apply Qabs_Qle_condition in Hx. destruct Hx as [Hlo Hhi].
    assert (Hfv : (fv == 196715135728956532249 # 10000000000000000)%Q) by reflexivity.
    rewrite (round_q_near x 1967151); [reflexivity| |];
      change (inject_Z 1967151) with (1967151 # 1)%Q; lra.
  - intros x Hx. apply Qabs_Qle_condition in Hx. destruct Hx as [Hlo Hhi].
    assert (Hfv : (fv == 196715135728956532249 # 10000000000000000)%Q) by reflexivity.
    rewrite (round_q_near x 967151); [reflexivity| |];
      change (inject_Z 967151) with (967151 # 1)%Q; lra.
  - intros x Hx. apply Qabs_Qle_condition in Hx. destruct Hx as [Hlo Hhi].
    assert (Hfv : ((fv / 10000 - 1) * 100 == 96715135728956532249 # 1000000000000000000)%Q)
      by reflexivity.
    rewrite (round_q_near x 9672); [reflexivity| |];
      change (inject_Z 9672) with (9672 # 1)%Q; lra.
Qed.

End GrowthProperties.

(** ** [get_stock_price] and [get_company_info] *)

Section QuoteProperties.

Variable fetch_info : string -> exc (gmap string pyval).









End QuoteProperties.

(** ** All tools *)

Section ToolProperties.

Variable libm_pow : Q -> Q -> Q.
Variable libm_sqrt : Q -> Q.
Variable fetch_info : string -> exc (gmap string pyval).
Variable fetch_history : string -> string -> exc (list bar).


(** C1 (amended): every tool returns a result on every input and raises
    nothing.  When the statements of its [try] block raise [e], the
    result has the error populated with the text of [e]; the summary of
    [get_stock_price] and of [get_financial_history], and the business
    summary of [get_company_info], are a message with that text, whereas
    the summary of [calculate_compound_growth] is empty and that of
    [calculate_financial_ratio] is [None]. *)
Theorem tools_never_raise (symbol query : string) :
  (exists r,
      get_stock_price fetch_info symbol = Return r
      /\ forall e,
          stock_price_body fetch_info (str_strip (str_upper symbol)) = Raise e ->
          StockPriceData.error r = Some (str_exn e)
          /\ StockPriceData.formatted_summary r
             = "Error retrieving stock data for " ++ StockPriceData.symbol r
               ++ ": " ++ str_exn e)
  /\ (exists r,
         get_company_info fetch_info symbol = Return r
         /\ forall e,
             company_info_body fetch_info (str_strip (str_upper symbol)) = Raise e ->
             CompanyInfo.error r = Some (str_exn e)
             /\ CompanyInfo.business_summary r
                = Some ("Error retrieving company info for " ++ CompanyInfo.symbol r
                        ++ ": " ++ str_exn e))
  /\ (exists r,
         get_financial_history libm_pow libm_sqrt fetch_history query = Return r
         /\ forall e,
             financial_history_body libm_pow libm_sqrt fetch_history
               (query_symbol query) (query_period query) = Raise e ->
             FinancialHistoryResult.error r = Some (str_exn e)
             /\ FinancialHistoryResult.formatted_summary r
                = Some ("Error retrieving financial history: " ++ str_exn e))
  /\ (exists r,
         calculate_compound_growth libm_pow query = Return r
         /\ forall e,
             compound_growth_body libm_pow query = Raise e ->
             CompoundGrowthResult.error r = Some ("Calculation error: " ++ str_exn e)
             /\ CompoundGrowthResult.formatted_summary r = "")
  /\ (exists r,
         calculate_financial_ratio query = Return r
         /\ forall e,
             financial_ratio_body query = Raise e ->
             FinancialRatioResult.error r = Some ("Calculation error: " ++ str_exn e)
             /\ FinancialRatioResult.formatted_summary r = None).
Proof.
  unfold get_stock_price, get_company_info, get_financial_history,
    calculate_compound_growth, calculate_financial_ratio.
  repeat split.
  - destruct (try_except_total
                (stock_price_body fetch_info (str_strip (str_upper symbol)))
                (stock_price_error (str_strip (str_upper symbol)))) as (r & -> & _ & Hr).
    exists r. split; [reflexivity|]. intros e He. now rewrite (Hr e He).
  - destruct (try_except_total
                (company_info_body fetch_info (str_strip (str_upper symbol)))
                (company_info_error (str_strip (str_upper symbol)))) as (r & -> & _ & Hr).
    exists r. split; [reflexivity|]. intros e He. now rewrite (Hr e He).
  - destruct (try_except_total
                (financial_history_body libm_pow libm_sqrt fetch_history
                   (query_symbol query) (query_period query))
                (financial_history_error (query_symbol query) (query_period query)))
      as (r & -> & _ & Hr).
    exists r. split; [reflexivity|]. intros e He. now rewrite (Hr e He).
  - destruct (try_except_total (compound_growth_body libm_pow query) compound_growth_error)
      as (r & -> & _ & Hr).
    exists r. split; [reflexivity|]. intros e He. now rewrite (Hr e He).
  - destruct (try_except_total (financial_ratio_body query) financial_ratio_error)
      as (r & -> & _ & Hr).
    exists r. split; [reflexivity|]. intros e He. now rewrite (Hr e He).
Qed.

End ToolProperties.

(** ** The built-ins on concrete inputs *)

Example str_split_example :
  str_split (str_strip "  10000 0.07	10 ") = ["10000"; "0.07"; "10"].
Proof. reflexivity. Qed.

Example float_of_string_examples :
  float_of_string "0.07" = Return (Fin 0.07)
  /\ float_of_string "-1_000.5e-2" = Return (Fin (-2001 # 200))
  /\ float_of_string "5." = Return (Fin 5)
  /\ float_of_string "-Infinity" = Return NInf
  /\ float_of_string "nan" = Return NaN
  /\ float_of_string "1._5"
     = Raise (Exn ValueError "could not convert string to float: '1._5'").
Proof. repeat split. Qed.

Example format_examples :
  format_f true 2 (Fin 1234567.5) = "1,234,567.50"
  /\ format_f false 2 (Fin (-0.001)) = "-0.00"
  /\ format_f false 2 (Fin 0.125) = "0.12"
  /\ format_int_comma 2500000000 = "2,500,000,000"
  /\ float_repr (Fin 10) = "10.0"
  /\ float_repr (Fin 0.00001) = "1e-05".
Proof. repeat split. Qed.

Example round_nd_examples :
  feq (round_nd (Fin 19671.5135729) 2) (Fin 19671.51)
  /\ feq (round_nd (Fin 0.125) 2) (Fin 0.12)
  /\ feq (round_nd (Fin 0.135) 2) (Fin 0.14)
  /\ feq (round_nd (Fin (-0.0002)) 2) (Fin 0)
  /\ round_nd NaN 2 = NaN.
Proof. repeat split; vm_compute; reflexivity. Qed.

(** ** The claims at concrete inputs *)

(** C1, as stated, fails: on "5 0 pe" [calculate_financial_ratio]
    reports the failure in [error] and leaves the summary [None], and on
    "0 0.07 10" [calculate_compound_growth] leaves it empty. *)
Lemma error_without_summary :
  (exists r,
      calculate_financial_ratio "5 0 pe" = Return r
      /\ FinancialRatioResult.error r
         = Some "Calculation error: Denominator cannot be zero"
      /\ FinancialRatioResult.formatted_summary r = None)
  /\ (exists r,
         calculate_compound_growth unit_pow "0 0.07 10" = Return r
         /\ CompoundGrowthResult.error r
            = Some "Calculation error: Principal and years must be positive"
         /\ CompoundGrowthResult.formatted_summary r = "").
Proof. split; eexists; (split; [reflexivity|]); split; reflexivity. Qed.

Lemma tools_never_raise_witness :
  exists r,
    calculate_financial_ratio "5 0 pe" = Return r
    /\ FinancialRatioResult.error r = Some "Calculation error: Denominator cannot be zero"
    /\ FinancialRatioResult.formatted_summary r = None.
Proof.
  destruct (tools_never_raise unit_pow unit_sqrt (fun _ => Return ∅) (fun _ _ => Return [])
              "AAPL" "5 0 pe") as (_ & _ & _ & _ & r & Hr & He).
  exists r. split; [exact Hr|].
  exact (He (Exn ValueError "Denominator cannot be zero") eq_refl).
Defined.





Lemma compound_growth_rejects_invalid_witness :
  (exists r msg,
      calculate_compound_growth unit_pow "0 0.07 10" = Return r
      /\ CompoundGrowthResult.error r = Some ("Calculation error: " ++ msg)
      /\ CompoundGrowthResult.principal r = Fin 0
      /\ CompoundGrowthResult.annual_rate r = Fin 0
      /\ CompoundGrowthResult.years r = Fin 0
      /\ CompoundGrowthResult.future_value r = Fin 0
      /\ CompoundGrowthResult.total_growth r = Fin 0
      /\ CompoundGrowthResult.total_return_percent r = Fin 0)
  /\ (exists r msg,
         calculate_compound_growth unit_pow "10000 0.07 0" = Return r
         /\ CompoundGrowthResult.error r = Some ("Calculation error: " ++ msg)
         /\ CompoundGrowthResult.principal r = Fin 0
         /\ CompoundGrowthResult.annual_rate r = Fin 0
         /\ CompoundGrowthResult.years r = Fin 0
         /\ CompoundGrowthResult.future_value r = Fin 0
         /\ CompoundGrowthResult.total_growth r = Fin 0
         /\ CompoundGrowthResult.total_return_percent r = Fin 0)
  /\ (exists r msg,
         calculate_compound_growth unit_pow "10000 0.07" = Return r
         /\ CompoundGrowthResult.error r = Some ("Calculation error: " ++ msg)
         /\ CompoundGrowthResult.principal r = Fin 0
         /\ CompoundGrowthResult.annual_rate r = Fin 0
         /\ CompoundGrowthResult.years r = Fin 0
         /\ CompoundGrowthResult.future_value r = Fin 0
         /\ CompoundGrowthResult.total_growth r = Fin 0
         /\ CompoundGrowthResult.total_return_percent r = Fin 0).
Proof.
  split; [|split].
  - apply (compound_growth_rejects_invalid unit_pow "0 0.07 10").
    right. left. exists "0", (Fin 0). repeat split.
  - apply (compound_growth_rejects_invalid unit_pow "10000 0.07 0").
    right. right. exists "0", (Fin 0). repeat split.
  - apply (compound_growth_rejects_invalid unit_pow "10000 0.07").
    left. vm_compute. lia.
Defined.

Lemma empty_history_no_data_witness :
  exists r,
    get_financial_history unit_pow unit_sqrt (fun _ _ => Return []) " aapl 5Y " = Return r
    /\ FinancialHistoryResult.error r = Some "No data available"
    /\ FinancialHistoryResult.formatted_summary r
       = Some "No historical data available for AAPL"
    /\ FinancialHistoryResult.start_price r = None
    /\ FinancialHistoryResult.trading_days r = None.
Proof.
  destruct (empty_history_no_data unit_pow unit_sqrt (fun _ _ => Return []) " aapl 5Y " eq_refl)
    as (r & Hr & Herr & Hsum & Hsym & Hsp & _ & _ & _ & _ & _ & Hdays).
  exists r. rewrite Hsym in Hsum. repeat split; assumption.
Defined.

Lemma single_point_history_witness :
  exists r tr dd cagr,
    get_financial_history unit_pow unit_sqrt (fun _ _ => Return [flat_bar 187.5]) "AAPL 1d"
    = Return r
    /\ FinancialHistoryResult.error r = None
    /\ FinancialHistoryResult.total_return_percent r = Some (Fin tr) /\ (tr == 0)%Q
    /\ FinancialHistoryResult.max_drawdown_percent r = Some (Fin dd) /\ (dd == 0)%Q
    /\ FinancialHistoryResult.trading_days r = Some 1%Z
    /\ FinancialHistoryResult.start_price r = FinancialHistoryResult.end_price r
    /\ FinancialHistoryResult.start_price r = Some (round_nd (Fin (Close (flat_bar 187.5))) 2)
    /\ FinancialHistoryResult.cagr_percent r = Some (Fin cagr) /\ (cagr == 0)%Q
    /\ FinancialHistoryResult.volatility_percent r = Some NaN.
Proof.
  apply (single_point_history unit_pow unit_sqrt (fun _ _ => Return [flat_bar 187.5])
           "AAPL 1d" (flat_bar 187.5)); reflexivity.
Defined.

(** * Further properties *)

(** ** Rounding, continued *)



Lemma round_half_even_ge (q : Q) (n : Z) : (inject_Z n <= q)%Q -> (n <= round_half_even q)%Z.
Proof.
  intros H. apply Qfloor_resp_le in H. rewrite Qfloor_Z in H.
  pose proof (round_half_even_bounds q). lia.
Qed.

Lemma round_q_ge (q : Q) (n : Z) :
  (inject_Z n <= q * 100)%Q -> (inject_Z n / 100 <= round_q q 2)%Q.
Proof.
  intros H. unfold round_q. rewrite Qred_correct.
  change (inject_Z (pow10 2)) with 100%Q.
  apply round_half_even_ge in H. rewrite Zle_Qle in H.
  apply Qmult_le_compat_r with (z := (/ 100)%Q) in H; [exact H | discriminate].
Qed.

(** ** Tokens *)




Lemma str_split_all_space (s : string) : all_space s = true -> str_split s = [].
Proof.
  unfold str_split. intros H.
  assert (Hgo : split_go s = (EmptyString, [])).
  { induction s as [|c r IH]; [reflexivity|]. cbn [all_space] in H.
    apply andb_true_iff in H as [Hc Hr]. cbn [split_go]. now rewrite (IH Hr), Hc. }
  now rewrite Hgo.
Qed.










(** ** Closing-price series, continued *)

Lemma drawdown_from_unit_loss (cs : list Q) (m : Q) :
  (0 < m)%Q -> Forall (fun c => 0 < c)%Q cs ->
  Forall unit_loss
    (zip_with (fun c m => np_div (fsub (Fin c) (Fin m)) (Fin m)) cs
       (expanding_max_from m cs)).
Proof.
  revert m. induction cs as [|c r IH]; intros m Hm Hpos;
    cbn [zip_with expanding_max_from]; constructor.
  - destruct (Qmax2_spec m c) as [H1 H2]. inversion Hpos; subst.
    rewrite fsub_fin, np_div_pos by lra.
    eexists; split; [reflexivity|]. split.
    + apply Qle_shift_div_l; lra.
    + apply Qdiv_sign_nonpos; lra.
  - inversion Hpos; subst. apply IH; [|assumption]. destruct (Qmax2_spec m c). lra.
Qed.

Lemma drawdown_unit_loss (cs : list Q) :
  Forall (fun c => 0 < c)%Q cs ->
  Forall unit_loss
    (zip_with (fun c m => np_div (fsub (Fin c) (Fin m)) (Fin m)) cs (expanding_max cs)).
Proof.
  destruct cs as [|c r]; intros H; cbn [zip_with expanding_max]; constructor;
    inversion H; subst.
  - rewrite fsub_fin, np_div_pos by assumption.
    eexists; split; [reflexivity|]. split.
    + apply Qle_shift_div_l; lra.
    + apply Qdiv_sign_nonpos; lra.
  - now apply drawdown_from_unit_loss.
Qed.

Lemma unit_loss_nonpos (x : float) : unit_loss x -> nonpos_fin x.
Proof. intros (d & -> & _ & H). now exists d. Qed.

Lemma fold_fmin2_unit_loss (xs : list float) (x : float) :
  unit_loss x -> Forall unit_loss xs -> unit_loss (fold_left fmin2 xs x).
Proof.
  revert x. induction xs as [|y r IH]; intros x Hx H; simpl; [exact Hx|].
  inversion H; subst. apply IH; [|assumption].
  unfold fmin2. now destruct (float_le x y).
Qed.

Lemma pd_min_unit_loss (xs : list float) :
  xs <> [] -> Forall unit_loss xs -> unit_loss (pd_min xs).
Proof.
  intros Hne H. unfold pd_min.
  rewrite (dropna_nonpos xs) by (eapply Forall_impl; [exact H | apply unit_loss_nonpos]).
  destruct xs as [|x r]; [congruence|].
  inversion H; subst. now apply fold_fmin2_unit_loss.
Qed.

Lemma drawdown_from_zero (cs : list Q) (m : Q) :
  (0 < m)%Q -> nondecreasing (m :: cs) ->
  Forall zero_fin
    (zip_with (fun c m => np_div (fsub (Fin c) (Fin m)) (Fin m)) cs
       (expanding_max_from m cs)).
Proof.
  revert m. induction cs as [|c r IH]; intros m Hm Hnd;
    cbn [zip_with expanding_max_from]; constructor.
  - destruct Hnd as [Hle _].
    assert (Hmax : Qmax2 m c = c).
    { unfold Qmax2. now rewrite (proj2 (Qle_bool_iff m c) Hle). }
    rewrite Hmax, fsub_fin, np_div_pos by lra.
    eexists; split; [reflexivity|]. field. lra.
  - destruct Hnd as [Hle Hnd].
    assert (Hmax : Qmax2 m c = c).
    { unfold Qmax2. now rewrite (proj2 (Qle_bool_iff m c) Hle). }
    rewrite Hmax. apply IH; [lra | exact Hnd].
Qed.

Lemma dropna_zero (xs : list float) : Forall zero_fin xs -> dropna xs = xs.
Proof.
  induction 1 as [|x r [d [-> _]] _ IH]; [reflexivity|].
  unfold dropna in *. simpl. now rewrite IH.
Qed.

Lemma fold_fmin2_zero (xs : list float) (x : float) :
  zero_fin x -> Forall zero_fin xs -> zero_fin (fold_left fmin2 xs x).
Proof.
  revert x. induction xs as [|y r IH]; intros x Hx H; simpl; [exact Hx|].
  inversion H; subst. apply IH; [|assumption].
  unfold fmin2. now destruct (float_le x y).
Qed.




Lemma pd_min_zero (xs : list float) : xs <> [] -> Forall zero_fin xs -> zero_fin (pd_min xs).
Proof.
  intros Hne H. unfold pd_min. rewrite (dropna_zero xs H).
  destruct xs as [|x r]; [congruence|].
  inversion H; subst. now apply fold_fmin2_zero.
Qed.

Lemma last_positive (cs : list Q) (c : Q) :
  (0 < c)%Q -> Forall (fun x => 0 < x)%Q cs -> (0 < List.last cs c)%Q.
Proof.
  revert c. induction cs as [|a r IH]; intros c Hc H; [exact Hc|].
  inversion H; subst. destruct r as [|b r']; [assumption|].
  change (List.last (a :: b :: r') c) with (List.last (b :: r') c).
  now apply IH.
Qed.

Lemma drawdown_nonempty (c : Q) (cs : list Q) :
  zip_with (fun c m => np_div (fsub (Fin c) (Fin m)) (Fin m)) (c :: cs)
    (expanding_max (c :: cs)) <> [].
Proof. discriminate. Qed.

(** ** [get_financial_history], continued *)

Section HistoryFurther.

Variable libm_pow : Q -> Q -> Q.
Variable libm_sqrt : Q -> Q.
Variable fetch_history : string -> string -> exc (list bar).

Lemma history_metrics_returns (symbol period : string) (b : bar) (rest : list bar) :
  exists r,
    history_metrics libm_pow libm_sqrt symbol period (b :: rest) = Return r
    /\ FinancialHistoryResult.error r = None
    /\ FinancialHistoryResult.symbol r = symbol
    /\ FinancialHistoryResult.period r = period
    /\ FinancialHistoryResult.trading_days r = Some (Z.of_nat (length (b :: rest)))
    /\ FinancialHistoryResult.start_price r = Some (round_nd (Fin (Close b)) 2)
    /\ FinancialHistoryResult.end_price r
       = Some (round_nd (Fin (List.last (map Close rest) (Close b))) 2).
Proof.
  unfold history_metrics.
  change (iloc_first (map Close (b :: rest))) with (Return (Close b)).
  change (iloc_last (map Close (b :: rest)))
    with (Return (List.last (map Close rest) (Close b))).
  cbn [mbind exc_bind].
  pose proof (years_positive (length rest)) as Hy.
  change (S (length rest)) with (length (b :: rest)) in Hy.
  rewrite (proj2 (float_gt_fin _ 0) Hy).
  rewrite float_div_nonzero by lra.
  cbn [mbind exc_bind mret exc_ret].
  eexists. split; [reflexivity|]. repeat split.
Qed.

(** X1: when the fetch returns a frame, the result has an error exactly
    when the frame is empty, whatever the closes are (zero and negative
    closes raise nothing); [trading_days] is the number of rows of a
    frame that is not empty. *)
Theorem history_error_iff_empty (query : string) (hist : list bar) :
  fetch_history (query_symbol query) (query_period query) = Return hist ->
  exists r,
    get_financial_history libm_pow libm_sqrt fetch_history query = Return r
    /\ (FinancialHistoryResult.error r = None <-> hist <> [])
    /\ FinancialHistoryResult.trading_days r
       = match hist with
         | [] => None
         | _ => Some (Z.of_nat (length hist))
         end.
Proof.
  intros Hf. unfold get_financial_history, financial_history_body. rewrite Hf.
  cbn [mbind exc_bind]. destruct hist as [|b rest].
  - cbn. eexists. split; [reflexivity|]. split; [|reflexivity].
    split; [discriminate | congruence].
  - destruct (history_metrics_returns (query_symbol query) (query_period query) b rest)
      as (r & -> & Herr & _ & _ & Hdays & _).
    cbn. exists r. split; [reflexivity|]. split; [|exact Hdays].
    split; [discriminate | intros _; exact Herr].
Qed.

(** X2: over positive closes neither loss figure is below -100:
    [max_drawdown_percent] and [total_return_percent] are at least
    -100. *)
Theorem history_losses_bounded (query : string) (b : bar) (rest : list bar) :
  fetch_history (query_symbol query) (query_period query) = Return (b :: rest) ->
  Forall (fun x => 0 < Close x)%Q (b :: rest) ->
  exists r dd tr,
    get_financial_history libm_pow libm_sqrt fetch_history query = Return r
    /\ FinancialHistoryResult.max_drawdown_percent r = Some (Fin dd)
    /\ (-100 <= dd)%Q
    /\ FinancialHistoryResult.total_return_percent r = Some (Fin tr)
    /\ (-100 <= tr)%Q.
Proof.
  intros Hf Hpos.
  destruct (history_metrics_positive libm_pow libm_sqrt
              (query_symbol query) (query_period query) b rest Hpos)
    as (r & dd & Hr & _ & _ & _ & Htr & _ & _ & Hmin & Hdd & _ & _).
  assert (Hc : Forall (fun c => 0 < c)%Q (map Close (b :: rest))).
  { apply Forall_map. exact Hpos. }
  destruct (pd_min_unit_loss _ (drawdown_nonempty _ _) (drawdown_unit_loss _ Hc))
    as (d & Hd & Hlo & _).
  assert (Heq : Fin dd = Fin d) by (rewrite <- Hmin; exact Hd).
  injection Heq as <-.
  assert (Hs : (0 < Close b)%Q) by (now inversion Hpos).
  assert (He : (0 < List.last (map Close rest) (Close b))%Q).
  { apply last_positive; [exact Hs|]. now inversion Hc. }
  exists r, (round_q (dd * 100) 2),
    (round_q ((List.last (map Close rest) (Close b) + - Close b) / Close b * 100) 2).
  split; [now apply (get_financial_history_metrics libm_pow libm_sqrt fetch_history query b rest)|].
  split; [exact Hdd|]. split; [|split; [exact Htr|]].
  - apply Qle_trans with (inject_Z (-10000) / 100)%Q; [discriminate|].
    apply round_q_ge. change (inject_Z (-10000)) with (-10000 # 1)%Q. lra.
  - apply Qle_trans with (inject_Z (-10000) / 100)%Q; [discriminate|].
    apply round_q_ge. change (inject_Z (-10000)) with (-10000 # 1)%Q.
    assert (H1 : (-1 <= (List.last (map Close rest) (Close b) + - Close b) / Close b)%Q).
    { apply Qle_shift_div_l; lra. }
    lra.
Qed.

(** X3: over positive closes that never fall, [max_drawdown_percent]
    is 0. *)
Theorem history_no_drawdown_when_rising (query : string) (b : bar) (rest : list bar) :
  fetch_history (query_symbol query) (query_period query) = Return (b :: rest) ->
  Forall (fun x => 0 < Close x)%Q (b :: rest) ->
  nondecreasing (map Close (b :: rest)) ->
  exists r dd,
    get_financial_history libm_pow libm_sqrt fetch_history query = Return r
    /\ FinancialHistoryResult.max_drawdown_percent r = Some (Fin dd)
    /\ (dd == 0)%Q.
Proof.
  intros Hf Hpos Hnd.
  destruct (history_metrics_positive libm_pow libm_sqrt
              (query_symbol query) (query_period query) b rest Hpos)
    as (r & dd & Hr & _ & _ & _ & _ & _ & _ & Hmin & Hdd & _ & _).
  assert (Hs : (0 < Close b)%Q) by (now inversion Hpos).
  assert (Hz : Forall zero_fin
                 (zip_with (fun c m => np_div (fsub (Fin c) (Fin m)) (Fin m))
                    (map Close (b :: rest)) (expanding_max (map Close (b :: rest))))).
  { cbn [map expanding_max zip_with]. constructor.
    - rewrite fsub_fin, np_div_pos by exact Hs.
      eexists; split; [reflexivity|]. field. lra.
    - now apply drawdown_from_zero. }
  destruct (pd_min_zero _ (drawdown_nonempty _ _) Hz) as (d & Hd & Hd0).
  assert (Heq : Fin dd = Fin d) by (rewrite <- Hmin; exact Hd).
  injection Heq as <-.
  exists r, (round_q (dd * 100) 2).
  split; [now apply (get_financial_history_metrics libm_pow libm_sqrt fetch_history query b rest)|].
  split; [exact Hdd|]. apply round_q_zero. rewrite Hd0. reflexivity.
Qed.



End HistoryFurther.

(** ** Rounding is monotone *)



(** ** [calculate_compound_growth], continued *)

Section GrowthFurther.

Variable libm_pow : Q -> Q -> Q.






(** X7: only the first three tokens of a query are read: two queries
    with the same first three tokens give the same result. *)
Theorem growth_ignores_further_tokens (query query' s0 s1 s2 : string)
    (rest rest' : list string) :
  str_split (str_strip query) = s0 :: s1 :: s2 :: rest ->
  str_split (str_strip query') = s0 :: s1 :: s2 :: rest' ->
  calculate_compound_growth libm_pow query = calculate_compound_growth libm_pow query'.
Proof.
  intros H H'. unfold calculate_compound_growth, compound_growth_body.
  rewrite H, H'. reflexivity.
Qed.




End GrowthFurther.

(** ** [calculate_financial_ratio], continued *)

Lemma financial_ratio_success (query s0 s1 : string) (rest : list string) (n d : float) :
  str_split (str_strip query) = s0 :: s1 :: rest ->
  float_of_string s0 = Return n ->
  float_of_string s1 = Return d ->
  float_eq d (Fin 0) = false ->
  let ratio_type := match rest with t :: _ => str_lower t | [] => "generic" end in
  let v := np_div n d in
  exists r,
    calculate_financial_ratio query = Return r
    /\ FinancialRatioResult.error r = None
    /\ FinancialRatioResult.numerator r = n
    /\ FinancialRatioResult.denominator r = d
    /\ FinancialRatioResult.ratio_type r = ratio_type
    /\ FinancialRatioResult.ratio_value r = Some (round_nd v 4)
    /\ FinancialRatioResult.description r = Some (fst (ratio_lookup ratio_type v))
    /\ FinancialRatioResult.context r = Some (snd (ratio_lookup ratio_type v)).
Proof.
  intros Hs H0 H1 Hz ratio_type v.
  unfold calculate_financial_ratio, financial_ratio_body. rewrite Hs.
  destruct rest as [|t rest'];
    cbn [length Nat.ltb Nat.leb list_index nth_error mbind exc_bind mret exc_ret];
    rewrite H0, H1; cbn [mbind exc_bind]; rewrite Hz;
    unfold float_div; rewrite Hz; cbn [mbind exc_bind]; fold v; fold ratio_type;
    destruct (ratio_lookup ratio_type v) as [description context] eqn:E;
    cbn; (eexists; split; [reflexivity|]); repeat split.
Qed.

Lemma ratio_lookup_unknown (t : string) (v : float) :
  t <> "pe" -> t <> "debt_to_equity" -> t <> "current" -> t <> "roe" ->
  ratio_lookup t v = ("Financial Ratio", "Custom calculation").
Proof.
  intros H1 H2 H3 H4. unfold ratio_lookup, ratio_info.
  destruct (decide (t = "generic")) as [->|H5]; [reflexivity|].
  rewrite !lookup_insert_ne by congruence. rewrite lookup_empty. reflexivity.
Qed.

(** X11: a ratio type that is none of "pe", "debt_to_equity", "current"
    and "roe" is interpreted as the generic ratio ("Financial Ratio",
    "Custom calculation"), while the result keeps the type that was
    given, in lower case; without a third token the type is
    "generic". *)
Theorem ratio_unknown_type_is_generic (query s0 s1 : string) (rest : list string)
    (n d : float) :
  str_split (str_strip query) = s0 :: s1 :: rest ->
  float_of_string s0 = Return n ->
  float_of_string s1 = Return d ->
  float_eq d (Fin 0) = false ->
  let given := match rest with t :: _ => str_lower t | [] => "generic" end in
  given <> "pe" -> given <> "debt_to_equity" -> given <> "current" -> given <> "roe" ->
  exists r,
    calculate_financial_ratio query = Return r
    /\ FinancialRatioResult.error r = None
    /\ FinancialRatioResult.ratio_type r = given
    /\ FinancialRatioResult.description r = Some "Financial Ratio"
    /\ FinancialRatioResult.context r = Some "Custom calculation".
Proof.
  intros Hs H0 H1 Hz given N1 N2 N3 N4.
  destruct (financial_ratio_success query s0 s1 rest n d Hs H0 H1 Hz)
    as (r & Hr & Herr & _ & _ & Hty & _ & Hdesc & Hctx).
  fold given in Hty, Hdesc, Hctx.
  rewrite (ratio_lookup_unknown given _ N1 N2 N3 N4) in Hdesc, Hctx.
  exists r. repeat split; assumption.
Qed.

(** X12: the ratio type is read without regard to case, and tokens after
    the third are ignored: two queries with the same first two tokens and
    third tokens that agree in lower case give the same result. *)
Theorem ratio_type_case_insensitive (query query' s0 s1 t t' : string)
    (rest rest' : list string) :
  str_split (str_strip query) = s0 :: s1 :: t :: rest ->
  str_split (str_strip query') = s0 :: s1 :: t' :: rest' ->
  str_lower t = str_lower t' ->
  calculate_financial_ratio query = calculate_financial_ratio query'.
Proof.
  intros H H' Ht. unfold calculate_financial_ratio, financial_ratio_body.
  rewrite H, H'. cbn [length Nat.ltb Nat.leb list_index nth_error mbind exc_bind mret exc_ret].
  now rewrite Ht.
Qed.

Lemma np_div_nan (x : float) : np_div x NaN = NaN.
Proof. now destruct x. Qed.

(** X13: a denominator that reads as NaN is not rejected (NaN is not
    equal to 0): the result has no error, the ratio value is NaN, and
    the context is the lowest label of the rule, since no threshold is
    exceeded. *)
Theorem ratio_nan_denominator (query s0 s1 : string) (rest : list string) (n : float) :
  str_split (str_strip query) = s0 :: s1 :: rest ->
  float_of_string s0 = Return n ->
  float_of_string s1 = Return NaN ->
  exists r,
    calculate_financial_ratio query = Return r
    /\ FinancialRatioResult.error r = None
    /\ FinancialRatioResult.denominator r = NaN
    /\ FinancialRatioResult.ratio_value r = Some NaN
    /\ (FinancialRatioResult.ratio_type r = "pe" ->
        FinancialRatioResult.context r = Some "Low")
    /\ (FinancialRatioResult.ratio_type r = "debt_to_equity" ->
        FinancialRatioResult.context r = Some "Conservative")
    /\ (FinancialRatioResult.ratio_type r = "current" ->
        FinancialRatioResult.context r = Some "Potential concern")
    /\ (FinancialRatioResult.ratio_type r = "roe" ->
        FinancialRatioResult.context r = Some "Weak").
Proof.
  intros Hs H0 H1.
  destruct (financial_ratio_success query s0 s1 rest n NaN Hs H0 H1 eq_refl)
    as (r & Hr & Herr & _ & Hd & Hty & Hv & _ & Hctx).
  rewrite np_div_nan in Hv, Hctx. rewrite <- Hty in Hctx.
  exists r. split; [exact Hr|]. split; [exact Herr|]. split; [exact Hd|].
  split; [exact Hv|].
  repeat split; intros E; rewrite E in Hctx; exact Hctx.
Qed.

(** ** [get_stock_price] and [get_company_info], continued *)

Section QuoteFurther.

Variable fetch_info : string -> exc (gmap string pyval).



(** X14: when the market capitalisation of the quote is present and
    [int] raises on it (an infinite or NaN float, a string that is not an
    integer), the whole lookup fails: the result is the error record with
    the text of that exception, and no price is reported even if the
    quote has one. *)
Theorem stock_market_cap_conversion_fails (symbol : string) (info : gmap string pyval)
    (e : exn) :
  fetch_info (str_strip (str_upper symbol)) = Return info ->
  truthy (dict_get info "marketCap") = true ->
  py_int (dict_get info "marketCap") = Raise e ->
  exists r,
    get_stock_price fetch_info symbol = Return r
    /\ StockPriceData.error r = Some (str_exn e)
    /\ StockPriceData.current_price r = None
    /\ StockPriceData.market_cap r = None
    /\ StockPriceData.formatted_summary r
       = "Error retrieving stock data for " ++ StockPriceData.symbol r ++ ": " ++ str_exn e.
Proof.
  intros Hf Ht He. unfold get_stock_price, stock_price_body.
  rewrite Hf. cbn [mbind exc_bind]. rewrite Ht, He. cbn.
  eexists. split; [reflexivity|]. repeat split.
Qed.



Lemma validate_str_text (model field : string) (v : pyval) :
  is_text v -> validate_str model field v = Return (text_value v).
Proof. now destruct v. Qed.

Lemma validate_int_count (model field : string) (v : pyval) :
  is_count v -> validate_int model field v = Return (count_value v).
Proof. now destruct v. Qed.

Lemma py_or_text (v w : pyval) : is_text v -> is_text w -> is_text (py_or v w).
Proof. unfold py_or. now destruct (truthy v). Qed.

(** X17: for a quote whose fields are strings (an int for the employee
    count) or absent, [get_company_info] returns no error; the name is
    [longName], or [shortName] when [longName] is absent or empty; the
    business summary is the placeholder "No business summary available"
    when the key [longBusinessSummary] is absent, and [None] when the key
    is present with the value [None]. *)
Theorem company_info_fields (symbol : string) (info : gmap string pyval) :
  fetch_info (str_strip (str_upper symbol)) = Return info ->
  well_formed_profile info ->
  exists r,
    get_company_info fetch_info symbol = Return r
    /\ CompanyInfo.error r = None
    /\ CompanyInfo.name r
       = text_value (if truthy (dict_get info "longName")
                     then dict_get info "longName"
                     else dict_get info "shortName")
    /\ CompanyInfo.sector r = text_value (dict_get info "sector")
    /\ CompanyInfo.industry r = text_value (dict_get info "industry")
    /\ CompanyInfo.country r = text_value (dict_get info "country")
    /\ CompanyInfo.employees r = count_value (dict_get info "fullTimeEmployees")
    /\ CompanyInfo.business_summary r
       = match info !! "longBusinessSummary" with
         | None => Some "No business summary available"
         | Some v => text_value v
         end.
Proof.
  intros Hf (Hl & Hs & Hsec & Hind & Hc & He & Hb).
  unfold get_company_info, company_info_body. rewrite Hf. cbn [mbind exc_bind].
  rewrite (validate_str_text "CompanyInfo" "name" _ (py_or_text _ _ Hl Hs)).
  rewrite (validate_str_text "CompanyInfo" "sector" _ Hsec).
  rewrite (validate_str_text "CompanyInfo" "industry" _ Hind).
  rewrite (validate_str_text "CompanyInfo" "country" _ Hc).
  rewrite (validate_int_count "CompanyInfo" "employees" _ He). cbn [mbind exc_bind].
  assert (Hsum : validate_str "CompanyInfo" "business_summary"
                   (dict_get_default info "longBusinessSummary"
                      (PyStr "No business summary available"))
                 = Return (match info !! "longBusinessSummary" with
                           | None => Some "No business summary available"
                           | Some v => text_value v
                           end)).
  { unfold dict_get_default. unfold dict_get in Hb.
    destruct (info !! "longBusinessSummary") as [v|]; cbn [default] in *;
      [now apply validate_str_text | reflexivity]. }
  rewrite Hsum. cbn. eexists. split; [reflexivity|]. repeat split.
Qed.

End QuoteFurther.

(** ** The tool registry *)

Section RegistryProperties.

Variable search : Type.
Variable TAVILY_API_KEY : exc string.
Variable TavilySearch : tavily_args -> exc search.

(** X18: whatever the configuration and the constructor of the search
    tool do, the registry is built: it starts with the five computation
    tools in their order, the search tool is its sixth and last entry
    exactly when its construction returned, a warning with the text of
    the exception is printed exactly when it raised, and the last line
    printed gives the number of tools. *)
Theorem registry_degrades_gracefully :
  let tools := fst (load_financial_tools search TAVILY_API_KEY TavilySearch) in
  let printed := snd (load_financial_tools search TAVILY_API_KEY TavilySearch) in
  firstn 5 tools
  = [tool_get_stock_price; tool_get_company_info; tool_get_financial_history;
     tool_calculate_compound_growth; tool_calculate_financial_ratio]
  /\ (forall t,
        tavily_init search TAVILY_API_KEY TavilySearch = Return t ->
        skipn 5 tools = [tool_tavily_search t]
        /\ printed = ["Loaded 6 financial tools"])
  /\ (forall e,
        tavily_init search TAVILY_API_KEY TavilySearch = Raise e ->
        skipn 5 tools = []
        /\ printed = ["Warning: Tavily search not available: " ++ str_exn e;
                      "Loaded 5 financial tools"])
  /\ (forall t, In (tool_tavily_search t) tools ->
                exists key,
                  TAVILY_API_KEY = Return key
                  /\ TavilySearch {| api_key := key; max_results := 5;
                                     search_depth := "advanced"; include_answer := true;
                                     include_raw_content := false;
                                     include_images := false |} = Return t).
Proof.
  intros tools printed. subst tools printed. unfold load_financial_tools.
  destruct (tavily_init search TAVILY_API_KEY TavilySearch) as [t|e] eqn:Hinit;
    cbn [fst snd]; (split; [reflexivity|]); (split; [|split]).
  - intros t' [= <-]. now split.
  - discriminate.
  - intros t' Hin. cbn in Hin.
    destruct Hin as [H|[H|[H|[H|[H|[H|[]]]]]]]; try discriminate H.
    injection H as <-. unfold tavily_init in Hinit.
    destruct TAVILY_API_KEY as [key|e]; [|discriminate]. now exists key.
  - discriminate.
  - intros e' [= <-]. now split.
  - intros t' Hin. cbn in Hin.
    destruct Hin as [H|[H|[H|[H|[H|[]]]]]]; discriminate H.
Qed.

End RegistryProperties.

(** ** The further properties at concrete inputs *)

Lemma history_error_iff_empty_witness :
  exists r,
    get_financial_history unit_pow unit_sqrt
      (fun _ _ => Return [flat_bar 0; flat_bar (-5)]) "TEST 1mo" = Return r
    /\ (FinancialHistoryResult.error r = None <-> [flat_bar 0; flat_bar (-5)] <> [])
    /\ FinancialHistoryResult.trading_days r = Some 2%Z.
Proof.
  exact (history_error_iff_empty unit_pow unit_sqrt
           (fun _ _ => Return [flat_bar 0; flat_bar (-5)]) "TEST 1mo"
           [flat_bar 0; flat_bar (-5)] eq_refl).
Defined.

Lemma history_losses_bounded_witness :
  exists r dd tr,
    get_financial_history unit_pow unit_sqrt
      (fun _ _ => Return [flat_bar 100; flat_bar 0.01; flat_bar 0.02]) "AAPL" = Return r
    /\ FinancialHistoryResult.max_drawdown_percent r = Some (Fin dd)
    /\ (-100 <= dd)%Q
    /\ FinancialHistoryResult.total_return_percent r = Some (Fin tr)
    /\ (-100 <= tr)%Q.
Proof.
  apply (history_losses_bounded unit_pow unit_sqrt
           (fun _ _ => Return [flat_bar 100; flat_bar 0.01; flat_bar 0.02]) "AAPL"
           (flat_bar 100) [flat_bar 0.01; flat_bar 0.02] eq_refl).
  repeat constructor.
Defined.

Lemma history_no_drawdown_when_rising_witness :
  exists r dd,
    get_financial_history unit_pow unit_sqrt
      (fun _ _ => Return [flat_bar 100; flat_bar 100; flat_bar 104.5]) "AAPL" = Return r
    /\ FinancialHistoryResult.max_drawdown_percent r = Some (Fin dd)
    /\ (dd == 0)%Q.
Proof.
  apply (history_no_drawdown_when_rising unit_pow unit_sqrt
           (fun _ _ => Return [flat_bar 100; flat_bar 100; flat_bar 104.5]) "AAPL"
           (flat_bar 100) [flat_bar 100; flat_bar 104.5] eq_refl).
  - repeat constructor.
  - cbn. repeat split; discriminate.
Defined.



Lemma growth_ignores_further_tokens_witness :
  calculate_compound_growth unit_pow "10000 0.07 10 years, please"
  = calculate_compound_growth unit_pow "10000 0.07 10".
Proof.
  apply (growth_ignores_further_tokens unit_pow "10000 0.07 10 years, please"
           "10000 0.07 10" "10000" "0.07" "10" ["years,"; "please"] []); reflexivity.
Defined.




Lemma ratio_unknown_type_is_generic_witness :
  exists r,
    calculate_financial_ratio "5 2 Margin" = Return r
    /\ FinancialRatioResult.error r = None
    /\ FinancialRatioResult.ratio_type r = "margin"
    /\ FinancialRatioResult.description r = Some "Financial Ratio"
    /\ FinancialRatioResult.context r = Some "Custom calculation".
Proof.
  apply (ratio_unknown_type_is_generic "5 2 Margin" "5" "2" ["Margin"] (Fin 5) (Fin 2));
    try reflexivity; discriminate.
Defined.

Lemma ratio_type_case_insensitive_witness :
  calculate_financial_ratio "82.50 5.50 PE"
  = calculate_financial_ratio "82.50 5.50 pe trailing".
Proof.
  apply (ratio_type_case_insensitive "82.50 5.50 PE" "82.50 5.50 pe trailing"
           "82.50" "5.50" "PE" "pe" [] ["trailing"]); reflexivity.
Defined.

Lemma ratio_nan_denominator_witness :
  exists r,
    calculate_financial_ratio "30 nan pe" = Return r
    /\ FinancialRatioResult.error r = None
    /\ FinancialRatioResult.ratio_value r = Some NaN
    /\ FinancialRatioResult.context r = Some "Low".
Proof.
  destruct (ratio_nan_denominator "30 nan pe" "30" "nan" ["pe"] (Fin 30) eq_refl eq_refl eq_refl)
    as (r & Hr & Herr & _ & Hv & Hpe & _).
  exists r. repeat split; try assumption. apply Hpe.
  vm_compute in Hr. now injection Hr as <-.
Defined.

Lemma stock_market_cap_conversion_fails_witness :
  let info : gmap string pyval :=
    <[ "currentPrice" := PyFloat (Fin 150.25) ]> (<[ "marketCap" := PyFloat PInf ]> ∅) in
  exists r,
    get_stock_price (fun _ => Return info) "aapl" = Return r
    /\ StockPriceData.error r = Some "cannot convert float infinity to integer"
    /\ StockPriceData.current_price r = None.
Proof.
  intros info.
  destruct (stock_market_cap_conversion_fails (fun _ => Return info) "aapl" info
              (Exn OverflowError "cannot convert float infinity to integer")
              eq_refl eq_refl eq_refl) as (r & Hr & He & Hc & _).
  exists r. repeat split; assumption.
Defined.



Lemma company_info_fields_witness :
  let info : gmap string pyval :=
    <[ "longName" := PyStr "" ]>
      (<[ "shortName" := PyStr "Apple" ]>
         (<[ "longBusinessSummary" := PyNone ]> ∅)) in
  exists r,
    get_company_info (fun _ => Return info) "aapl" = Return r
    /\ CompanyInfo.error r = None
    /\ CompanyInfo.name r = Some "Apple"
    /\ CompanyInfo.business_summary r = None.
Proof.
  intros info.
  destruct (company_info_fields (fun _ => Return info) "aapl" info eq_refl)
    as (r & Hr & Herr & Hname & _ & _ & _ & _ & Hsum).
  - vm_compute. repeat split.
  - exists r. repeat split; assumption.
Defined.
